(** * The L'Oreal chat client ([script.js]): conversation history and the
      submission life cycle

    The page script keeps a bounded conversation history in a module-level
    variable, mirrors it into [localStorage], and on every form submission
    sends the system prompt followed by the history to a remote worker.

    The development has three layers.
    - The host environment (the browser): [localStorage], [JSON.parse],
      [JSON.stringify] and [String.prototype.trim] are operations of a
      type class [Host]; what the proofs need from them is the class
      [HostLaws].  A reference host, with an in-memory quota-limited
      storage and a small JSON codec, inhabits both classes.
    - The script itself, function by function, in a state-and-exception
      monad over the page state ([Page]).
    - The properties of the history and of the submission cycle. *)

From Stdlib Require Import ZArith QArith Ascii String DecimalString.
From stdpp Require Import base option list strings.

Local Open Scope string_scope.
Local Open Scope list_scope.
Set Warnings "-register-all".

(** ** JavaScript values *)

(** The values the script handles: what [JSON.parse] returns, the message
    objects the script builds, and [undefined].  Objects are property lists
    in property order (no key occurs twice in a JavaScript object); the
    script never inspects a number, so the payload of [VNum] is opaque. *)
Inductive value : Type :=
  | VUndef
  | VNull
  | VBool (b : bool)
  | VNum (n : Z)
  | VStr (s : string)
  | VArr (items : list value)
  | VObj (props : list (string * value)).

(** The exceptions that can reach the script. *)
Inductive exn : Type :=
  | TypeError        (* property read on null/undefined, call of a non-function,
                        text of a value that has none *)
  | SyntaxError      (* JSON.parse, Response.json *)
  | DOMException     (* localStorage: quota exceeded, access denied *)
  | NetworkError.    (* fetch rejected, body stream failed *)

(** A computation either returns or throws. *)
Inductive outcome (A : Type) : Type :=
  | Ok (a : A)
  | Throw (e : exn).
Arguments Ok {A} a.
Arguments Throw {A} e.

#[global] Instance outcome_ret : MRet outcome := fun A a => Ok a.
#[global] Instance outcome_bind : MBind outcome := fun A B f m =>
  match m with
  | Ok a => f a
  | Throw e => Throw e
  end.

(** JavaScript truthiness ([if (x)], [!x], [x || y]). *)
Definition truthy (v : value) : bool :=
  match v with
  | VUndef | VNull => false
  | VBool b => b
  | VNum n => negb (n =? 0)%Z
  | VStr s => negb (String.eqb s "")
  | VArr _ | VObj _ => true
  end.

Definition nullish (v : value) : bool :=
  match v with
  | VUndef | VNull => true
  | _ => false
  end.

(** [Array.isArray]. *)
Definition isArray (v : value) : bool :=
  match v with
  | VArr _ => true
  | _ => false
  end.

(** First binding of a key in a property list. *)
Fixpoint lookup_prop (k : string) (props : list (string * value)) : option value :=
  match props with
  | [] => None
  | (k', v) :: rest => if String.eqb k k' then Some v else lookup_prop k rest
  end.

(** The property read [v.k], for the data properties this script reads
    ([role], [content], [choices], [message]): none of them lives on a
    built-in prototype, so it is found only as an own property of an
    object.  Reading a property of [null] or [undefined] throws. *)
Definition get_prop (v : value) (k : string) : outcome value :=
  match v with
  | VUndef | VNull => Throw TypeError
  | VObj props => Ok (default VUndef (lookup_prop k props))
  | VBool _ | VNum _ | VStr _ | VArr _ => Ok VUndef
  end.

(** The indexed read [v[0]]. *)
Definition index0 (v : value) : outcome value :=
  match v with
  | VUndef | VNull => Throw TypeError
  | VArr items => Ok (default VUndef (head items))
  | VObj props => Ok (default VUndef (lookup_prop "0" props))
  | VStr (String c _) => Ok (VStr (String c ""))
  | VStr EmptyString | VBool _ | VNum _ => Ok VUndef
  end.

(** Optional chaining [v?.rest]: a nullish [v] ends the whole chain with
    [undefined]. *)
Definition opt_chain (v : value) (rest : value -> outcome value) : outcome value :=
  if nullish v then Ok VUndef else rest v.

(** Whether a value can be converted to text, as the setter of
    [textContent] does with what it is given.  [null] and [undefined] give
    the empty text, and every other primitive has a text.  An object is
    converted through its [toString]: a parsed object that has a property
    of that name hides the built-in one with a value that is not a
    function, and its [valueOf], own or built-in, gives no primitive
    either, so the conversion throws a TypeError.  An array joins the texts
    of its elements. *)
Fixpoint has_text (v : value) : bool :=
  match v with
  | VObj props => negb (existsb (fun kv => String.eqb (fst kv) "toString") props)
  | VArr items => forallb has_text items
  | VUndef | VNull | VBool _ | VNum _ | VStr _ => true
  end.

(** ** The host environment *)

(** What the browser provides and the script calls.  [getItem] returns
    [None] for JavaScript's [null]; both storage operations may throw.
    [JSON_stringify] is applied to arrays only (the history), for which
    [JSON.stringify] returns a string. *)
Class Host : Type := {
  Storage : Type;
  getItem : Storage -> string -> outcome (option string);
  setItem : Storage -> string -> string -> outcome Storage;
  JSON_parse : string -> outcome value;
  JSON_stringify : value -> string;
  trim : string -> string;
}.

(** ** Configuration (script.js, lines 10-16) *)

Definition WORKER_URL : string := "https://loreal.anvimsiddabhattuni.workers.dev".
Definition HISTORY_KEY : string := "loreal_chat_history_v1".
Definition NAME_KEY : string := "loreal_user_name_v1".
Definition MAX_HISTORY_MESSAGES : nat := 20.
Definition baseSystemPrompt : string :=
  "You are the L'Oréal Smart Product Advisor. Only answer user questions about L'Oréal products (makeup, skincare, haircare, fragrances), product details, and personalized routines or recommendations. If a user asks about anything outside L'Oréal products or routines, reply briefly that you can only assist with L'Oréal product-related questions and offer to help within that scope.".

(** ** Messages and the bounded history *)

(** The object literal [{ role: r, content: c }]. *)
Definition message (r c : value) : value :=
  VObj [("role", r); ("content", c)].

Definition text_message (r c : string) : value :=
  message (VStr r) (VStr c).

(** [a.slice(-n)]: the last [n] items, all of them when there are fewer. *)
Definition slice_last {A} (n : nat) (a : list A) : list A :=
  drop (length a - n) a.

(** The append used after a user message and after an assistant reply
    (lines 122-125 and 168-171):
    [history.push(m); if (history.length > MAX) history = history.slice(-MAX)]. *)
Definition push_bounded (history : list value) (m : value) : list value :=
  let pushed := history ++ [m] in
  if (MAX_HISTORY_MESSAGES <? length pushed)%nat
  then slice_last MAX_HISTORY_MESSAGES pushed
  else pushed.


(** The double quote and the line feed, as strings of one character. *)
Definition dq : string := String (ascii_of_nat 34) "".
Definition lf : string := String (ascii_of_nat 10) "".

(** [s.replace(/c/g, by)]: every occurrence of one character. *)
Fixpoint replace_all (c : ascii) (by_ : string) (s : string) : string :=
  match s with
  | EmptyString => EmptyString
  | String x rest =>
      if Ascii.eqb x c then by_ ++ replace_all c by_ rest
      else String x (replace_all c by_ rest)
  end.

(** [escapeHtml] (lines 33-38): three replacements, in the source's order. *)
Definition escapeHtml (text : string) : string :=
  replace_all ">" "&gt;" (replace_all "<" "&lt;" (replace_all "&" "&amp;" text)).

(** [systemPromptFor] (lines 88-90). *)
Definition systemPromptFor (name : string) : string :=
  baseSystemPrompt ++ lf ++ "User name: " ++ name
    ++ ". Use the user's name when appropriate.".

(** The welcome text of line 100. *)
Definition welcomeFor (name : string) : string :=
  "Hi " ++ name
    ++ "! I'm your L'Oréal Smart Product Advisor. Ask me about products, routines, or personalised recommendations.".

(** [x || d] for a value that is [null] or a string. *)
Definition or_else (x : option string) (d : string) : string :=
  match x with
  | Some s => if String.eqb s "" then d else s
  | None => d
  end.

(** The callback of line 138, [(m) => ({ role: m.role, content: m.content })]. *)
Definition project_message (m : value) : outcome value :=
  r ← get_prop m "role";
  c ← get_prop m "content";
  mret (message r c).

(** [messagesToSend] (lines 135-139): the system message, then the
    projection of every history entry. *)
Definition messagesToSend (name : string) (history : list value) : outcome (list value) :=
  rest ← mapM project_message history;
  mret (text_message "system" (systemPromptFor name) :: rest).

(** ** The page *)

(** The DOM nodes the script creates.  [textContent] keeps the value that
    was assigned and stands for its text (whether the value has one is
    [has_text]); the typing indicator is the one element filled through
    [innerHTML]. *)
Inductive content : Type :=
  | TextContent (text : value)
  | InnerHTML (markup : string).

Record Element : Type := mkElement {
  el_id : nat;
  className : string;
  aria_hidden : option string;
  el_content : content;
}.

(** The [#latestQuestion] element: the three things [setLatestQuestion] sets. *)
Record Banner : Type := mkBanner {
  banner_html : string;
  banner_display : string;
  banner_aria_hidden : string;
}.

(** What the script writes to the console. *)
Inductive LogEntry : Type :=
  | WarnSaveFailed (e : exn)                      (* line 23 *)
  | ErrorNonOK (status : nat) (body : string)     (* line 158 *)
  | ErrorUnexpected (data : value)                (* line 175 *)
  | ErrorCaught (e : exn).                        (* line 183 *)

(** The request handed to [fetch] (lines 142-150). *)
Record Request : Type := mkRequest {
  req_url : string;
  req_method : string;
  req_content_type : string;
  req_messages : list value;
  req_max_tokens : Z;
  req_temperature : Q;
}.

(** What [fetch] settles with: a rejection, or a response whose body can
    still fail to arrive. *)
Record Response : Type := mkResponse {
  resp_status : nat;
  resp_body : outcome string;
}.

Inductive fetch_result : Type :=
  | FetchRejected (e : exn)
  | FetchResolved (resp : Response).

(** [resp.ok]: a status in the range 200-299. *)
Definition resp_ok (resp : Response) : bool :=
  ((200 <=? resp_status resp)%nat && (resp_status resp <=? 299)%nat)%bool.

Section Script.
Context {host : Host}.

(** [await resp.text()] and [await resp.json()]. *)
Definition resp_text (resp : Response) : outcome string := resp_body resp.
Definition resp_json (resp : Response) : outcome value :=
  resp_body resp ≫= JSON_parse.

(** [data?.choices?.[0]?.message?.content?.trim()] (line 163).  The last
    step calls [trim] on a non-nullish content: a content that is not a
    string has no such method and the call throws. *)
Definition call_trim (v : value) : outcome value :=
  match v with
  | VStr s => Ok (VStr (trim s))
  | _ => Throw TypeError
  end.

Definition extract_reply (data : value) : outcome value :=
  opt_chain data (fun d =>
    choices ← get_prop d "choices";
    opt_chain choices (fun cs =>
      first ← index0 cs;
      opt_chain first (fun f =>
        msg ← get_prop f "message";
        opt_chain msg (fun m =>
          c ← get_prop m "content";
          opt_chain c call_trim)))).

(** The state the script reads and writes: the storage, the two module-level
    variables [userName] and [history], the DOM under [#chatWindow],
    [#latestQuestion] and [#userInput], the console, the requests issued,
    and the supply of fresh element identities. *)
Record Page : Type := mkPage {
  localStorage : Storage;
  userName : string;
  history : list value;
  chatWindow : list Element;
  latestQuestionEl : Banner;
  userInput_value : string;
  console : list LogEntry;
  requests : list Request;
  next_id : nat;
}.

Definition set_localStorage (st : Storage) (p : Page) : Page :=
  mkPage st (userName p) (history p) (chatWindow p) (latestQuestionEl p)
         (userInput_value p) (console p) (requests p) (next_id p).
Definition set_userName (n : string) (p : Page) : Page :=
  mkPage (localStorage p) n (history p) (chatWindow p) (latestQuestionEl p)
         (userInput_value p) (console p) (requests p) (next_id p).
Definition set_history (h : list value) (p : Page) : Page :=
  mkPage (localStorage p) (userName p) h (chatWindow p) (latestQuestionEl p)
         (userInput_value p) (console p) (requests p) (next_id p).
Definition set_chatWindow (w : list Element) (p : Page) : Page :=
  mkPage (localStorage p) (userName p) (history p) w (latestQuestionEl p)
         (userInput_value p) (console p) (requests p) (next_id p).
Definition set_latestQuestionEl (b : Banner) (p : Page) : Page :=
  mkPage (localStorage p) (userName p) (history p) (chatWindow p) b
         (userInput_value p) (console p) (requests p) (next_id p).
Definition set_userInput_value (v : string) (p : Page) : Page :=
  mkPage (localStorage p) (userName p) (history p) (chatWindow p) (latestQuestionEl p)
         v (console p) (requests p) (next_id p).
Definition set_console (c : list LogEntry) (p : Page) : Page :=
  mkPage (localStorage p) (userName p) (history p) (chatWindow p) (latestQuestionEl p)
         (userInput_value p) c (requests p) (next_id p).
Definition set_requests (r : list Request) (p : Page) : Page :=
  mkPage (localStorage p) (userName p) (history p) (chatWindow p) (latestQuestionEl p)
         (userInput_value p) (console p) r (next_id p).
Definition set_next_id (n : nat) (p : Page) : Page :=
  mkPage (localStorage p) (userName p) (history p) (chatWindow p) (latestQuestionEl p)
         (userInput_value p) (console p) (requests p) n.

(** ** The script monad: page state that survives an exception *)

Definition M (A : Type) : Type := Page -> outcome A * Page.

#[global] Instance M_ret : MRet M := fun A a p => (Ok a, p).
#[global] Instance M_bind : MBind M := fun A B f m p =>
  match m p with
  | (Ok a, p') => f a p'
  | (Throw e, p') => (Throw e, p')
  end.

Definition gets {A} (f : Page -> A) : M A := fun p => (Ok (f p), p).
Definition modify (f : Page -> Page) : M unit := fun p => (Ok tt, f p).
Definition lift {A} (o : outcome A) : M A := fun p => (o, p).
Definition throw {A} (e : exn) : M A := fun p => (Throw e, p).

(** [try { body } catch (e) { handler }]: the handler runs on the state the
    body left behind. *)
Definition try_catch {A} (body : M A) (handler : exn -> M A) : M A := fun p =>
  match body p with
  | (Ok a, p') => (Ok a, p')
  | (Throw e, p') => handler e p'
  end.

(** [for (const x of l) body(x)]. *)
Fixpoint for_each {A} (body : A -> M unit) (l : list A) : M unit :=
  match l with
  | [] => mret tt
  | x :: rest => body x ;; for_each body rest
  end.

(** ** Storage and console *)

Definition localStorage_getItem (k : string) : M (option string) :=
  st ← gets localStorage;
  lift (getItem st k).

Definition localStorage_setItem (k v : string) : M unit :=
  st ← gets localStorage;
  st' ← lift (setItem st k v);
  modify (set_localStorage st').

Definition console_log (e : LogEntry) : M unit :=
  modify (fun p => set_console (console p ++ [e]) p).

(** [saveHistory] (lines 19-25). *)
Definition saveHistory (h : list value) : M unit :=
  try_catch
    (localStorage_setItem HISTORY_KEY (JSON_stringify (VArr h)))
    (fun e => console_log (WarnSaveFailed e)).

(** [loadHistory] (lines 26-32). *)
Definition loadHistory : M value :=
  try_catch
    (stored ← localStorage_getItem HISTORY_KEY;
     lift (JSON_parse (or_else stored "[]")))
    (fun _ => mret (VArr [])).

(** ** The transcript view *)

(** [document.createElement]: a node with an identity of its own. *)
Definition createElement : M nat :=
  n ← gets next_id;
  modify (set_next_id (S n)) ;;
  mret n.

Definition appendChild (el : Element) : M unit :=
  modify (fun p => set_chatWindow (chatWindow p ++ [el]) p).

(** The assignment [el.textContent = text] of line 44: it throws when the
    value has no text, before the element is attached. *)
Definition set_textContent (text : value) : M unit :=
  if has_text text then mret tt else throw TypeError.

(** [appendMessage] (lines 41-48). *)
Definition appendMessage (text : value) (cls : string) : M Element :=
  n ← createElement;
  set_textContent text ;;
  let el := mkElement n ("msg " ++ cls) None (TextContent text) in
  appendChild el ;;
  mret el.

Definition typing_markup : string :=
  "<span class=" ++ dq ++ "typing-dots" ++ dq ++ " aria-hidden=" ++ dq ++ "true" ++ dq
    ++ "><span></span><span></span><span></span></span>".

(** [appendTypingIndicator] (lines 51-59). *)
Definition appendTypingIndicator : M Element :=
  n ← createElement;
  let el := mkElement n "msg ai typing" (Some "true") (InnerHTML typing_markup) in
  appendChild el ;;
  mret el.

(** [el.remove()]: detaches the node when it is attached and does nothing
    otherwise. *)
Definition remove (el : Element) : M unit :=
  modify (fun p => set_chatWindow (filter (fun x => el_id x ≠ el_id el) (chatWindow p)) p).

(** [setLatestQuestion] (lines 62-74). *)
Definition setLatestQuestion (text : string) : M unit :=
  if String.eqb text ""
  then modify (set_latestQuestionEl (mkBanner "" "none" "true"))
  else modify (set_latestQuestionEl
                 (mkBanner ("<strong>Your question</strong>: " ++ escapeHtml text)
                           "block" "false")).

(** ** Initialisation (lines 77-109) *)

(** [getUserName] (lines 77-85); [answer] is what [window.prompt] returns
    ([None] for [null]).  The [setItem] of line 82 is not guarded. *)
Definition getUserName (answer : option string) : M string :=
  stored ← localStorage_getItem NAME_KEY;
  match stored with
  | Some name =>
      if String.eqb name ""
      then (let name := or_else answer "Friend" in
            localStorage_setItem NAME_KEY name ;; mret name)
      else mret name
  | None =>
      let name := or_else answer "Friend" in
      localStorage_setItem NAME_KEY name ;; mret name
  end.

(** Lines 94-95: [let history = loadHistory(); if (!Array.isArray(history)) history = [];]. *)
Definition load : M (list value) :=
  loaded ← loadHistory;
  mret (match loaded with
        | VArr items => items
        | _ => []
        end).

(** One turn of the loop of lines 106-108. *)
Definition render_saved (m : value) : M unit :=
  c ← lift (get_prop m "content");
  r ← lift (get_prop m "role");
  appendMessage c (match r with
                   | VStr "user" => "user"
                   | _ => "ai"
                   end) ;;
  mret tt.

(** The top-level statements of lines 93-109.  When they return, the
    submit handler is registered; when they throw, the script stops. *)
Definition init (answer : option string) : M unit :=
  name ← getUserName answer;
  modify (set_userName name) ;;
  h ← load;
  modify (set_history h) ;;
  if (length h =? 0)%nat then
    let welcome := welcomeFor name in
    appendMessage (VStr welcome) "ai" ;;
    modify (fun p => set_history (history p ++ [text_message "assistant" welcome]) p) ;;
    h' ← gets history;
    saveHistory h'
  else
    for_each render_saved h.

(** ** The submit handler (lines 112-185) *)

(** The append both branches perform (lines 122-126 and 168-172): push,
    truncate, persist. *)
Definition append_history (m : value) : M unit :=
  modify (fun p => set_history (push_bounded (history p) m) p) ;;
  h ← gets history;
  saveHistory h.

(** The request of lines 142-150; its body is kept as the object that
    [JSON.stringify] is applied to. *)
Definition worker_request (messages : list value) : Request :=
  mkRequest WORKER_URL "POST" "application/json" messages 600 (2 # 10).

(** Lines 113-150, up to the first [await]: returns the typing indicator
    when a request was issued and [None] when the input was empty.
    ([e.preventDefault()] and [userInput.blur()] touch nothing the page
    state records.) *)
Definition submit_begin : M (option Element) :=
  raw ← gets userInput_value;
  let userText := trim raw in
  if String.eqb userText "" then mret None
  else
    setLatestQuestion userText ;;
    appendMessage (VStr userText) "user" ;;
    append_history (text_message "user" userText) ;;
    modify (set_userInput_value "") ;;
    typingEl ← appendTypingIndicator;
    name ← gets userName;
    h ← gets history;
    messages ← lift (messagesToSend name h);
    modify (fun p => set_requests (requests p ++ [worker_request messages]) p) ;;
    mret (Some typingEl).

(** The [catch] block of lines 177-184. *)
Definition on_error (typingEl : Element) (err : exn) : M unit :=
  try_catch (remove typingEl) (fun _ => mret tt) ;;
  appendMessage (VStr "Network error. Check console.") "ai" ;;
  console_log (ErrorCaught err).

(** Lines 150-176, after the [await] of [fetch], inside the [try]. *)
Definition on_settled (typingEl : Element) (net : fetch_result) : M unit :=
  resp ← match net with
         | FetchRejected e => throw e
         | FetchResolved resp => mret resp
         end;
  remove typingEl ;;
  if negb (resp_ok resp) then
    text ← lift (resp_text resp);
    appendMessage (VStr "Server error. See console.") "ai" ;;
    console_log (ErrorNonOK (resp_status resp) text)
  else
    data ← lift (resp_json resp);
    reply ← lift (extract_reply data);
    if truthy reply then
      appendMessage reply "ai" ;;
      append_history (message (VStr "assistant") reply)
    else
      appendMessage (VStr "No reply received. Check worker logs.") "ai" ;;
      console_log (ErrorUnexpected data).

Definition submit_resume (typingEl : Element) (net : fetch_result) : M unit :=
  try_catch (on_settled typingEl net) (on_error typingEl).

(** One whole submission: the handler run from the event to its end, with
    [net] what [fetch] settles with. *)
Definition submit (net : fetch_result) : M unit :=
  pending ← submit_begin;
  match pending with
  | None => mret tt
  | Some typingEl => submit_resume typingEl net
  end.

End Script.

(** ** Vocabulary of the properties *)

(** An object with exactly the two properties of a message, in the order
    the script writes them. *)
Definition is_message (v : value) : Prop :=
  ∃ r c : value, v = message r c.

(** An entry the script itself may append: role [user] or [assistant] and a
    content that is not empty. *)
Definition valid_entry (v : value) : Prop :=
  ∃ r c : string,
    v = text_message r c ∧ (r = "user" ∨ r = "assistant") ∧ c ≠ "".

(** No entry carries the role [system]. *)
Definition no_system (h : list value) : Prop :=
  Forall (fun m => get_prop m "role" ≠ Ok (VStr "system")) h.

(** Every entry can be projected by [messagesToSend]. *)
Definition sendable (h : list value) : Prop :=
  Forall (fun m => nullish m = false) h.

(** A message bubble of the transcript. *)
Definition bubble (n : nat) (cls text : string) : Element :=
  mkElement n ("msg " ++ cls) None (TextContent (VStr text)).

Definition typing_indicator (n : nat) : Element :=
  mkElement n "msg ai typing" (Some "true") (InnerHTML typing_markup).

Definition NO_REPLY_NOTICE : string := "No reply received. Check worker logs.".
Definition SERVER_ERROR_NOTICE : string := "Server error. See console.".
Definition NETWORK_ERROR_NOTICE : string := "Network error. Check console.".

Section Vocabulary.
Context {host : Host}.

(** What is kept under the history key does not hold an array: nothing is
    stored, the storage cannot be read, the text does not parse, or it
    parses to something else than an array. *)
Inductive no_stored_history (st : Storage) : Prop :=
  | history_absent :
      getItem st HISTORY_KEY = Ok None → no_stored_history st
  | history_unreadable e :
      getItem st HISTORY_KEY = Throw e → no_stored_history st
  | history_unparseable text e :
      getItem st HISTORY_KEY = Ok (Some text) →
      JSON_parse text = Throw e → no_stored_history st
  | history_not_array text v :
      getItem st HISTORY_KEY = Ok (Some text) →
      JSON_parse text = Ok v → isArray v = false → no_stored_history st.

(** The reply a response carries: lines 162-163. *)
Definition reply_of (resp : Response) : outcome value :=
  resp_json resp ≫= extract_reply.

(** The entry a submission appends for the user. *)
Definition user_entry (p : Page) : value :=
  text_message "user" (trim (userInput_value p)).

(** The element identities in the transcript are older than the next one
    [createElement] hands out. *)
Definition dom_fresh (p : Page) : Prop :=
  Forall (fun el => el_id el < next_id p) (chatWindow p).

(** The pages on which the submit handler can run: the script's top level
    returned (so the handler was registered), and since then the user typed
    and submissions began and were settled, in any interleaving.  The
    script starts on a document whose elements are older than any element
    it will create ([dom_fresh]). *)
Inductive reachable : Page → Prop :=
  | reach_init p0 answer p :
      dom_fresh p0 → init answer p0 = (Ok tt, p) → reachable p
  | reach_input p text :
      reachable p → reachable (set_userInput_value text p)
  | reach_begin p :
      reachable p → reachable (submit_begin p).2
  | reach_resume p typingEl net :
      reachable p → reachable (submit_resume typingEl net p).2.

(** The state [saveHistory h] leaves behind: the storage updated, or a
    warning on the console. *)
Definition after_save (h : list value) (p : Page) : Page :=
  match setItem (localStorage p) HISTORY_KEY (JSON_stringify (VArr h)) with
  | Ok st' => set_localStorage st' p
  | Throw e => set_console (console p ++ [WarnSaveFailed e]) p
  end.

(** The array [load] finds in a storage: lines 28 and 94-95 as a function
    of the storage. *)
Definition stored_history (st : Storage) : list value :=
  match getItem st HISTORY_KEY with
  | Ok stored =>
      match JSON_parse (or_else stored "[]") with
      | Ok (VArr items) => items
      | _ => []
      end
  | Throw _ => []
  end.

(** The page after the welcome branch of the initialisation (lines
    100-103), from the page [getUserName] left. *)
Definition welcomed (name : string) (p : Page) : Page :=
  let entry := text_message "assistant" (welcomeFor name) in
  let shown :=
    mkPage (localStorage p) name [entry]
           (chatWindow p ++ [bubble (next_id p) "ai" (welcomeFor name)])
           (latestQuestionEl p) (userInput_value p) (console p) (requests p)
           (S (next_id p)) in
  after_save [entry] shown.

(** The page when the handler reaches [fetch]: the question shown, the
    user's bubble and the typing indicator appended, the history extended
    and saved, the input cleared. *)
Definition begun (p : Page) : Page :=
  let t := trim (userInput_value p) in
  let n := next_id p in
  let h1 := push_bounded (history p) (user_entry p) in
  mkPage (localStorage (after_save h1 p)) (userName p) h1
         (chatWindow p ++ [bubble n "user" t; typing_indicator (S n)])
         (mkBanner ("<strong>Your question</strong>: " ++ escapeHtml t) "block" "false")
         "" (console (after_save h1 p)) (requests p) (S (S n)).

(** How a request ends, as the handler tells the cases apart: a usable
    reply, a response without one, an error status whose body could be
    read, and everything that lands in the [catch] block. *)
Inductive settlement : Type :=
  | Replied (reply : value)
  | NoReply
  | ServerError
  | Failed.

Definition settle (net : fetch_result) : settlement :=
  match net with
  | FetchRejected _ => Failed
  | FetchResolved resp =>
      if resp_ok resp then
        match reply_of resp with
        | Ok reply => if truthy reply then Replied reply else NoReply
        | Throw _ => Failed
        end
      else
        match resp_text resp with
        | Ok _ => ServerError
        | Throw _ => Failed
        end
  end.

(** The text of the bubble that closes the exchange. *)
Definition closing_text (s : settlement) : value :=
  match s with
  | Replied reply => reply
  | NoReply => VStr NO_REPLY_NOTICE
  | ServerError => VStr SERVER_ERROR_NOTICE
  | Failed => VStr NETWORK_ERROR_NOTICE
  end.

(** The history after the exchange, from the history after the user's
    entry. *)
Definition closing_history (s : settlement) (h : list value) : list value :=
  match s with
  | Replied reply => push_bounded h (message (VStr "assistant") reply)
  | NoReply | ServerError | Failed => h
  end.

End Vocabulary.

(** ** What the proofs ask of a host *)

(** An entry of the shape the script itself stores:
    [{ role: <string>, content: <string> }]. *)
Definition is_text_message (v : value) : Prop :=
  ∃ r c : string, v = text_message r c.

(** The laws of [localStorage] and of the JSON functions the proofs use:
    a successful [setItem] is read back; ["[]"] parses to the empty array;
    the text of an array is never empty; and an array of text messages
    survives [JSON.parse (JSON.stringify _)]. *)
Class HostLaws (host : Host) : Prop := {
  getItem_setItem : ∀ st k v st',
    setItem st k v = Ok st' → getItem st' k = Ok (Some v);
  JSON_parse_empty_array : JSON_parse "[]" = Ok (VArr []);
  JSON_stringify_array_nonempty : ∀ items, JSON_stringify (VArr items) ≠ "";
  JSON_parse_stringify : ∀ items,
    Forall is_text_message items →
    JSON_parse (JSON_stringify (VArr items)) = Ok (VArr items);
}.

(** ** A reference host *)

(** An executable host: a storage held in memory with a quota on the
    characters it keeps, [trim] over the ASCII white space, and a JSON codec
    for the fragment whose numbers are integers. *)
Module Reference.

(** The stored items, one per key, in the order the keys were first set. *)
Record MemStorage : Type := mkMemStorage {
  items : list (string * string);
  quota : nat;
  denied : bool;
}.

Fixpoint item_lookup (k : string) (l : list (string * string)) : option string :=
  match l with
  | [] => None
  | (k', v) :: rest => if String.eqb k k' then Some v else item_lookup k rest
  end.

Fixpoint item_insert (k v : string) (l : list (string * string))
  : list (string * string) :=
  match l with
  | [] => [(k, v)]
  | (k', v') :: rest =>
      if String.eqb k k' then (k, v) :: rest else (k', v') :: item_insert k v rest
  end.

Definition used (l : list (string * string)) : nat :=
  foldr (fun kv acc => String.length kv.1 + String.length kv.2 + acc) 0 l.

Definition mem_getItem (st : MemStorage) (k : string) : outcome (option string) :=
  if denied st then Throw DOMException else Ok (item_lookup k (items st)).

Definition mem_setItem (st : MemStorage) (k v : string) : outcome MemStorage :=
  if denied st then Throw DOMException
  else
    let l := item_insert k v (items st) in
    if (used l <=? quota st)%nat
    then Ok (mkMemStorage l (quota st) (denied st))
    else Throw DOMException.

(** White space: tab, line feed, vertical tab, form feed, carriage return
    and space. *)
Definition is_space (c : ascii) : bool :=
  let n := nat_of_ascii c in
  ((9 <=? n)%nat && (n <=? 13)%nat || (n =? 32)%nat)%bool.

Fixpoint trim_start (s : string) : string :=
  match s with
  | EmptyString => EmptyString
  | String c rest => if is_space c then trim_start rest else s
  end.

Fixpoint trim_end (s : string) : string :=
  match s with
  | EmptyString => EmptyString
  | String c rest =>
      let rest' := trim_end rest in
      if (is_space c && String.eqb rest' "")%bool then EmptyString
      else String c rest'
  end.

Definition ascii_trim (s : string) : string := trim_end (trim_start s).

(** *** Printing *)

Definition hex_digit (n : nat) : ascii :=
  if (n <? 10)%nat then ascii_of_nat (48 + n) else ascii_of_nat (87 + n).

Definition backslash : ascii := ascii_of_nat 92.
Definition dquote : ascii := ascii_of_nat 34.

(** One character of a string literal, written in front of [k]. *)
Definition escape_char_into (c : ascii) (k : string) : string :=
  let n := nat_of_ascii c in
  if (n =? 34)%nat then String backslash (String dquote k)
  else if (n =? 92)%nat then String backslash (String backslash k)
  else if (n =? 8)%nat then String backslash (String "b" k)
  else if (n =? 9)%nat then String backslash (String "t" k)
  else if (n =? 10)%nat then String backslash (String "n" k)
  else if (n =? 12)%nat then String backslash (String "f" k)
  else if (n =? 13)%nat then String backslash (String "r" k)
  else if (n <? 32)%nat then
    String backslash (String "u" (String "0" (String "0"
      (String (hex_digit (n / 16)) (String (hex_digit (n mod 16)) k)))))
  else String c k.

Fixpoint escape_into (s : string) (k : string) : string :=
  match s with
  | EmptyString => k
  | String c rest => escape_char_into c (escape_into rest k)
  end.

Definition quote_into (s : string) (k : string) : string :=
  String dquote (escape_into s (String dquote k)).

Definition print_Z (n : Z) : string :=
  DecimalString.NilZero.string_of_int (Z.to_int n).

(** [print_value v k] is the JSON text of [v] in front of [k].  In an array
    [undefined] prints as [null]; in an object a property whose value is
    [undefined] is left out. *)
Fixpoint print_value (v : value) (k : string) : string :=
  match v with
  | VUndef | VNull => "null" ++ k
  | VBool true => "true" ++ k
  | VBool false => "false" ++ k
  | VNum n => print_Z n ++ k
  | VStr s => quote_into s k
  | VArr vs =>
      String "[" (match vs with
                  | [] => String "]" k
                  | x :: xs =>
                      print_value x
                        ((fix more (l : list value) : string :=
                            match l with
                            | [] => String "]" k
                            | y :: ys => String "," (print_value y (more ys))
                            end) xs)
                  end)
  | VObj props =>
      String "{"
        ((fix members (first : bool) (l : list (string * value)) : string :=
            match l with
            | [] => String "}" k
            | (_, VUndef) :: rest => members first rest
            | (key, x) :: rest =>
                let member :=
                  quote_into key (String ":" (print_value x (members false rest))) in
                if first then member else String "," member
            end) true props)
  end.

Definition stringify (v : value) : string := print_value v "".

(** The text of an array after its first item, in front of [k]. *)
Fixpoint print_rest (k : string) (l : list value) : string :=
  match l with
  | [] => String "]" k
  | y :: ys => String "," (print_value y (print_rest k ys))
  end.

(** *** Parsing *)

Definition is_ws (c : ascii) : bool :=
  (Ascii.eqb c " " || Ascii.eqb c (ascii_of_nat 9)
   || Ascii.eqb c (ascii_of_nat 10) || Ascii.eqb c (ascii_of_nat 13))%bool.

Fixpoint skip_ws (s : string) : string :=
  match s with
  | String c rest => if is_ws c then skip_ws rest else s
  | EmptyString => EmptyString
  end.

(** [expect c s]: what follows [c] when [c] is the next token of [s]. *)
Definition expect (c : ascii) (s : string) : option string :=
  match skip_ws s with
  | String c' rest => if Ascii.eqb c c' then Some rest else None
  | EmptyString => None
  end.

Definition hex_value (c : ascii) : option N :=
  let n := N_of_ascii c in
  if ((48 <=? n) && (n <=? 57))%N%bool then Some (n - 48)%N
  else if ((97 <=? n) && (n <=? 102))%N%bool then Some (n - 87)%N
  else if ((65 <=? n) && (n <=? 70))%N%bool then Some (n - 55)%N
  else None.

Definition hex4 (a b c d : ascii) : option N :=
  x ← hex_value a; y ← hex_value b; z ← hex_value c; w ← hex_value d;
  Some (((x * 16 + y) * 16 + z) * 16 + w)%N.

(** The UTF-8 bytes of a code point below 65536, written in front of [k]. *)
Definition utf8_into (cp : N) (k : string) : string :=
  if (cp <? 128)%N then String (ascii_of_N cp) k
  else if (cp <? 2048)%N then
    String (ascii_of_N (192 + cp / 64)) (String (ascii_of_N (128 + cp mod 64)) k)
  else
    String (ascii_of_N (224 + cp / 4096))
      (String (ascii_of_N (128 + (cp / 64) mod 64))
         (String (ascii_of_N (128 + cp mod 64)) k)).

Definition unescape (c : ascii) : option ascii :=
  let n := nat_of_ascii c in
  if (n =? 34)%nat then Some dquote
  else if (n =? 92)%nat then Some backslash
  else if (n =? 47)%nat then Some "/"%char
  else if (n =? 98)%nat then Some (ascii_of_nat 8)
  else if (n =? 116)%nat then Some (ascii_of_nat 9)
  else if (n =? 110)%nat then Some (ascii_of_nat 10)
  else if (n =? 102)%nat then Some (ascii_of_nat 12)
  else if (n =? 114)%nat then Some (ascii_of_nat 13)
  else None.

(** The characters of a string literal after its opening quote, and what
    follows the closing quote. *)
Fixpoint parse_chars (s : string) : option (string * string) :=
  match s with
  | EmptyString => None
  | String c rest =>
      let n := nat_of_ascii c in
      if (n =? 34)%nat then Some (EmptyString, rest)
      else if (n =? 92)%nat then
        match rest with
        | String "u" (String h1 (String h2 (String h3 (String h4 rest')))) =>
            cp ← hex4 h1 h2 h3 h4;
            '(out, r) ← parse_chars rest';
            Some (utf8_into cp out, r)
        | String e rest' =>
            ch ← unescape e;
            '(out, r) ← parse_chars rest';
            Some (String ch out, r)
        | EmptyString => None
        end
      else if (n <? 32)%nat then None
      else '(out, r) ← parse_chars rest; Some (String c out, r)
  end.

Definition is_digit (c : ascii) : bool :=
  let n := nat_of_ascii c in ((48 <=? n) && (n <=? 57))%nat%bool.

Fixpoint parse_digits (acc : N) (s : string) : N * string :=
  match s with
  | String c rest =>
      if is_digit c then parse_digits (10 * acc + (N_of_ascii c - 48))%N rest
      else (acc, s)
  | EmptyString => (acc, EmptyString)
  end.

(** An integer literal: an optional minus sign and at least one digit. *)
Definition parse_number (s : string) : option (value * string) :=
  match s with
  | String "-" (String c rest) =>
      if is_digit c
      then let '(n, r) := parse_digits 0 (String c rest) in Some (VNum (- Z.of_N n), r)
      else None
  | String c _ =>
      if is_digit c
      then let '(n, r) := parse_digits 0 s in Some (VNum (Z.of_N n), r)
      else None
  | EmptyString => None
  end.

(** [s] without the prefix [p], when it starts with it. *)
Fixpoint strip_prefix (p s : string) : option string :=
  match p, s with
  | EmptyString, _ => Some s
  | String a p', String b s' => if Ascii.eqb a b then strip_prefix p' s' else None
  | String _ _, EmptyString => None
  end.

(** A later binding of a key replaces the earlier one, in its place. *)
Fixpoint set_prop (k : string) (v : value) (props : list (string * value))
  : list (string * value) :=
  match props with
  | [] => [(k, v)]
  | (k', v') :: rest =>
      if String.eqb k k' then (k, v) :: rest else (k', v') :: set_prop k v rest
  end.

Definition object_of (members : list (string * value)) : value :=
  VObj (foldl (fun acc kv => set_prop kv.1 kv.2 acc) [] members).

(** A literal or a number, at the first character of [s]. *)
Definition parse_atom (s : string) : option (value * string) :=
  match strip_prefix "null" s, strip_prefix "true" s, strip_prefix "false" s with
  | Some r, _, _ => Some (VNull, r)
  | _, Some r, _ => Some (VBool true, r)
  | _, _, Some r => Some (VBool false, r)
  | _, _, _ => parse_number s
  end.

Fixpoint parse_value (fuel : nat) (s : string) : option (value * string) :=
  match fuel with
  | 0 => None
  | S fuel =>
      match expect "[" s with
      | Some rest =>
          match expect "]" rest with
          | Some r => Some (VArr [], r)
          | None => '(vs, r) ← parse_items fuel rest; Some (VArr vs, r)
          end
      | None =>
      match expect "{" s with
      | Some rest =>
          match expect "}" rest with
          | Some r => Some (VObj [], r)
          | None => '(ms, r) ← parse_members fuel rest; Some (object_of ms, r)
          end
      | None =>
      match expect dquote s with
      | Some rest => '(str, r) ← parse_chars rest; Some (VStr str, r)
      | None => parse_atom (skip_ws s)
      end end end
  end
with parse_items (fuel : nat) (s : string) : option (list value * string) :=
  match fuel with
  | 0 => None
  | S fuel =>
      '(v, r) ← parse_value fuel s;
      match expect "," r with
      | Some r' => '(vs, r'') ← parse_items fuel r'; Some (v :: vs, r'')
      | None => r' ← expect "]" r; Some ([v], r')
      end
  end
with parse_members (fuel : nat) (s : string) : option (list (string * value) * string) :=
  match fuel with
  | 0 => None
  | S fuel =>
      r0 ← expect dquote s;
      '(key, r1) ← parse_chars r0;
      r2 ← expect ":" r1;
      '(v, r3) ← parse_value fuel r2;
      match expect "," r3 with
      | Some r4 => '(ms, r5) ← parse_members fuel r4; Some ((key, v) :: ms, r5)
      | None => r4 ← expect "}" r3; Some ([(key, v)], r4)
      end
  end.

Definition parse (s : string) : outcome value :=
  match parse_value (S (String.length s)) s with
  | Some (v, rest) =>
      match skip_ws rest with
      | EmptyString => Ok v
      | _ => Throw SyntaxError
      end
  | None => Throw SyntaxError
  end.

#[export] Instance host : Host := {|
  Storage := MemStorage;
  getItem := mem_getItem;
  setItem := mem_setItem;
  JSON_parse := parse;
  JSON_stringify := stringify;
  trim := ascii_trim;
|}.

End Reference.

(** ** Pages of the reference host used as concrete inputs *)

Module Demo.
Import Reference.

Definition empty_storage : MemStorage := mkMemStorage [] 4000 false.

(** The page before the script runs: nothing rendered, nothing typed. *)
Definition blank (st : MemStorage) : Page :=
  mkPage st "" [] [] (mkBanner "" "none" "true") "" [] [] 0.

(** The page after the first visit of a user who answers "Ada". *)
Definition booted : Page := (init (Some "Ada") (blank empty_storage)).2.

(** The same page with a question typed into the input. *)
Definition asking : Page := set_userInput_value "  Which serum?  " booted.

(** Twenty-two different entries. *)
Definition entries : list value :=
  map (fun n => text_message "user" (String (ascii_of_nat (65 + n)) "")) (seq 0 22).

(** A storage whose history key holds the text of a number. *)
Definition number_stored : MemStorage :=
  mkMemStorage [(HISTORY_KEY, "42")] 4000 false.

Definition hello : value := text_message "user" "Hello".

(** The storage after [hello] was appended to the history of [booted]. *)
Definition hello_saved : MemStorage :=
  match setItem (localStorage booted) HISTORY_KEY
                (JSON_stringify (VArr (push_bounded (history booted) hello))) with
  | Ok st => st
  | Throw _ => empty_storage
  end.

(** A success response whose body is the JSON text of an empty object. *)
Definition empty_reply : Response := mkResponse 200 (Ok "{}").
(** A success response whose body is not JSON. *)
Definition garbled_reply : Response := mkResponse 200 (Ok "oops").
(** An error response with a body, and one whose body never arrives. *)
Definition server_error : Response := mkResponse 500 (Ok "boom").
Definition broken_error : Response := mkResponse 500 (Throw NetworkError).

(** A success response that carries a reply, and one whose content is a
    number. *)
Definition good_reply : Response :=
  mkResponse 200
    (Ok (stringify
           (VObj [("choices",
                   VArr [VObj [("message",
                                VObj [("content", VStr " Try the Revitalift serum. ")])]])]))).
Definition number_reply : Response :=
  mkResponse 200
    (Ok (stringify
           (VObj [("choices",
                   VArr [VObj [("message", VObj [("content", VNum 7)])]])]))).

(** A storage that knows the user and has no room for anything else. *)
Definition cramped : MemStorage := mkMemStorage [(NAME_KEY, "Ada")] 30 false.

End Demo.

(** ** Vocabulary of the further properties *)

(** What [escapeHtml] writes for one character. *)
Definition escape_one (c : ascii) : string :=
  if Ascii.eqb c "&" then "&amp;"
  else if Ascii.eqb c "<" then "&lt;"
  else if Ascii.eqb c ">" then "&gt;"
  else String c "".

(** Every character escaped on its own, in one pass. *)
Fixpoint escape_each (s : string) : string :=
  match s with
  | EmptyString => EmptyString
  | String c rest => escape_one c ++ escape_each rest
  end.

(** [c] occurs in [s]. *)
Fixpoint occurs (c : ascii) (s : string) : bool :=
  match s with
  | EmptyString => false
  | String x rest => (Ascii.eqb x c || occurs c rest)%bool
  end.

(** The value of [m.k] where the read does not throw. *)
Definition prop_or_undefined (m : value) (k : string) : value :=
  match get_prop m k with
  | Ok v => v
  | Throw _ => VUndef
  end.

(** The object [messagesToSend] sends for a history entry: its role and its
    content, and nothing else of it. *)
Definition sent_form (m : value) : value :=
  message (prop_or_undefined m "role") (prop_or_undefined m "content").

(** The bubble the initialisation renders for a saved entry (line 107). *)
Definition saved_bubble (n : nat) (m : value) : Element :=
  mkElement n
    ("msg " ++ match prop_or_undefined m "role" with
               | VStr "user" => "user"
               | _ => "ai"
               end)
    None (TextContent (prop_or_undefined m "content")).

(** A saved entry the loop of lines 106-108 can show: its [content] can be
    read (the entry is neither [null] nor [undefined]) and has a text. *)
Definition renderable_entry (m : value) : bool :=
  negb (nullish m) && has_text (prop_or_undefined m "content").

Definition renderable (h : list value) : Prop :=
  Forall (fun m => renderable_entry m = true) h.

(** How many elements a turn of the loop creates before it throws on an
    entry it cannot show: none when the entry cannot be read, the one of
    line 42 when the content has no text. *)
Definition created_before_throw (m : value) : nat :=
  if nullish m then 0 else 1.

(** The bubbles of a saved history, with consecutive identities from [n]. *)
Fixpoint render_all (n : nat) (h : list value) : list Element :=
  match h with
  | [] => []
  | m :: rest => saved_bubble n m :: render_all (S n) rest
  end.

(** An element shows text as text: its content was set through
    [textContent], or it is the fixed markup of the typing indicator. *)
Definition plain_or_typing (el : Element) : Prop :=
  match el_content el with
  | TextContent _ => True
  | InnerHTML markup => markup = typing_markup
  end.

(** The banner [setLatestQuestion] shows for a non-empty question. *)
Definition question_banner (text : string) : Banner :=
  mkBanner ("<strong>Your question</strong>: " ++ escapeHtml text) "block" "false".

(** ** Further concrete inputs *)

Module FurtherDemo.
Import Reference Demo.

(** A storage that holds a name and has room for nothing at all. *)
Definition full : MemStorage := mkMemStorage [] 0 false.

(** A returning user's storage: the name and a conversation of two entries. *)
Definition returning : MemStorage := hello_saved.

(** An entry whose content is an object that hides [toString]. *)
Definition textless : value :=
  VObj [("content", VObj [("toString", VNum 1)])].

(** A storage whose saved history holds a message, then an entry whose
    content has no text, then [null]. *)
Definition textless_stored : MemStorage :=
  mkMemStorage
    [(NAME_KEY, "Ada");
     (HISTORY_KEY, stringify (VArr [hello; textless; VNull]))]
    4000 false.

(** A storage whose saved history starts with such an entry. *)
Definition textless_first_stored : MemStorage :=
  mkMemStorage
    [(NAME_KEY, "Ada"); (HISTORY_KEY, stringify (VArr [textless; VNull]))]
    4000 false.


(** A parsed body of the expected shape, with a second choice and a
    further property. *)
Definition shaped_body : value :=
  VObj [("id", VNum 7);
        ("choices",
         VArr [VObj [("message", VObj [("role", VStr "assistant");
                                       ("content", VStr "  Use a serum.  ")])];
               VObj [("message", VObj [("content", VStr "second")])]])].

End FurtherDemo.

(** ** Properties of the bounded history *)

Lemma slice_last_length {A} (n : nat) (a : list A) :
  length (slice_last n a) = Nat.min n (length a).
Proof. unfold slice_last. rewrite length_drop. lia. Qed.

Lemma slice_last_short {A} (n : nat) (a : list A) :
  length a <= n -> slice_last n a = a.
Proof.
  intros Hle. unfold slice_last.
  replace (length a - n) with 0 by lia. reflexivity.
Qed.

Lemma slice_last_app {A} (n : nat) (a b : list A) :
  n <= length b -> slice_last n (a ++ b) = slice_last n b.
Proof.
  intros Hle. unfold slice_last.
  rewrite length_app, drop_app.
  rewrite drop_ge by lia. simpl. f_equal. lia.
Qed.

(** Truncating twice keeps what one truncation of the whole keeps. *)
Lemma slice_last_snoc {A} (n : nat) (a : list A) (x : A) :
  0 < n -> slice_last n (slice_last n a ++ [x]) = slice_last n (a ++ [x]).
Proof.
  intros Hn. unfold slice_last.
  rewrite !length_app, length_drop. simpl.
  destruct (decide (length a <= n)) as [Hle | Hgt].
  - replace (length a - n) with 0 by lia. simpl.
    f_equal. lia.
  - rewrite (drop_app_le a [x]) by lia.
    rewrite (drop_app_le (drop _ a) [x]) by (rewrite length_drop; lia).
    rewrite drop_drop. f_equal. f_equal. lia.
Qed.

Lemma push_bounded_slice (h : list value) (m : value) :
  push_bounded h m = slice_last MAX_HISTORY_MESSAGES (h ++ [m]).
Proof.
  unfold push_bounded. cbv zeta.
  destruct (Nat.ltb_spec MAX_HISTORY_MESSAGES (length (h ++ [m]))) as [Hlt | Hge];
    [reflexivity |].
  symmetry. apply slice_last_short. lia.
Qed.

Lemma push_bounded_length (h : list value) (m : value) :
  length (push_bounded h m) = Nat.min MAX_HISTORY_MESSAGES (S (length h)).
Proof.
  rewrite push_bounded_slice, slice_last_length, length_app. simpl.
  rewrite Nat.add_1_r. reflexivity.
Qed.

(** A run of appends is one truncation of everything appended. *)
Lemma foldl_push_bounded (ms : list value) (h : list value) :
  ms <> [] ->
  foldl push_bounded h ms = slice_last MAX_HISTORY_MESSAGES (h ++ ms).
Proof.
  induction ms as [| m ms IH] using rev_ind; [congruence |].
  intros _. rewrite foldl_app. simpl.
  destruct ms as [| m0 ms'] using rev_ind.
  - simpl. apply push_bounded_slice.
  - clear IHms'. rewrite IH by (intros E; destruct ms'; discriminate).
    rewrite push_bounded_slice.
    rewrite slice_last_snoc by (unfold MAX_HISTORY_MESSAGES; lia).
    rewrite <- !app_assoc. reflexivity.
Qed.

(** ** The reference host meets the laws *)

Module ReferenceFacts.
Import Reference.

Lemma parse_chars_escape_char (c : ascii) (k : string) :
  parse_chars (escape_char_into c k)
  = '(out, r) ← parse_chars k; Some (String c out, r).
Proof.
  destruct c as [[] [] [] [] [] [] [] []]; reflexivity.
Qed.

Lemma parse_chars_escape (s k : string) :
  parse_chars (escape_into s (String dquote k)) = Some (s, k).
Proof.
  induction s as [| c s IH]; simpl.
  - reflexivity.
  - rewrite parse_chars_escape_char, IH. reflexivity.
Qed.

Lemma escape_char_into_length (c : ascii) (k : string) :
  String.length k < String.length (escape_char_into c k).
Proof.
  unfold escape_char_into.
  repeat (case_match; [simpl; lia |]). simpl; lia.
Qed.

Lemma escape_into_length (s k : string) :
  String.length k <= String.length (escape_into s k).
Proof.
  induction s as [| c s IH]; simpl; [lia |].
  pose proof (escape_char_into_length c (escape_into s k)). lia.
Qed.

Lemma print_value_array (x : value) (xs : list value) (k : string) :
  print_value (VArr (x :: xs)) k = String "[" (print_value x (print_rest k xs)).
Proof.
  simpl. do 2 f_equal.
  induction xs as [| y ys IH]; simpl; [reflexivity |].
  rewrite IH. reflexivity.
Qed.

Lemma print_value_message (r c k : string) :
  print_value (text_message r c) k
  = String "{" (quote_into "role" (String ":" (quote_into r (String ","
      (quote_into "content" (String ":" (quote_into c (String "}" k)))))))).
Proof. reflexivity. Qed.

Lemma quote_into_length (s k : string) :
  String.length k + 2 <= String.length (quote_into s k).
Proof.
  unfold quote_into. simpl.
  pose proof (escape_into_length s (String dquote k)) as H. simpl in H. lia.
Qed.

Lemma print_value_message_length (m : value) (k : string) :
  is_text_message m -> String.length k + 13 <= String.length (print_value m k).
Proof.
  intros (r & c & ->). rewrite print_value_message.
  set (k4 := String "}" k).
  set (k3 := String ":" (quote_into c k4)).
  set (k2 := String "," (quote_into "content" k3)).
  set (k1 := String ":" (quote_into r k2)).
  pose proof (quote_into_length c k4) as H4.
  pose proof (quote_into_length "content" k3) as H3.
  pose proof (quote_into_length r k2) as H2.
  pose proof (quote_into_length "role" k1) as H1.
  subst k1 k2 k3 k4.
  cbn [String.length] in *. lia.
Qed.

Lemma expect_hit (c : ascii) (k : string) :
  is_ws c = false -> expect c (String c k) = Some k.
Proof.
  intros Hc. unfold expect. simpl. rewrite Hc, Ascii.eqb_refl. reflexivity.
Qed.

Lemma expect_miss (c c' : ascii) (k : string) :
  is_ws c' = false -> Ascii.eqb c c' = false -> expect c (String c' k) = None.
Proof.
  intros Hc Hne. unfold expect. simpl. rewrite Hc, Hne. reflexivity.
Qed.

Ltac expect_step :=
  first [ rewrite expect_hit by reflexivity
        | rewrite expect_miss by reflexivity ].

Ltac parse_step :=
  first [ rewrite expect_hit by reflexivity
        | rewrite expect_miss by reflexivity
        | rewrite parse_chars_escape
        | progress cbn [parse_value parse_members parse_items mbind option_bind] ].

Lemma parse_value_message (fuel : nat) (r c k : string) :
  4 <= fuel ->
  parse_value fuel (print_value (text_message r c) k) = Some (text_message r c, k).
Proof.
  intros Hfuel.
  do 4 (destruct fuel as [| fuel]; [lia |]).
  rewrite print_value_message. unfold quote_into.
  repeat parse_step. reflexivity.
Qed.

Lemma parse_items_messages (ms : list value) :
  forall (m : value) (k : string) (fuel : nat),
  is_text_message m -> Forall is_text_message ms ->
  length ms + 5 <= fuel ->
  parse_items fuel (print_value m (print_rest k ms)) = Some (m :: ms, k).
Proof.
  induction ms as [| m' ms IH]; intros m k fuel (r & c & ->) Hms Hfuel;
    (destruct fuel as [| fuel]; [lia |]);
    cbn [parse_items]; rewrite parse_value_message by (simpl in Hfuel; lia);
    cbn [mbind option_bind print_rest].
  - rewrite expect_miss, expect_hit by reflexivity. reflexivity.
  - apply Forall_cons in Hms as [Hm' Hms].
    rewrite expect_hit by reflexivity.
    rewrite IH by (try assumption; simpl in *; lia). reflexivity.
Qed.

Lemma print_rest_length (ms : list value) (k : string) :
  Forall is_text_message ms ->
  length ms + String.length k < String.length (print_rest k ms).
Proof.
  induction 1 as [| m ms Hm Hms IH]; simpl; [lia |].
  pose proof (print_value_message_length m (print_rest k ms) Hm). lia.
Qed.

Lemma parse_stringify_messages (ms : list value) :
  Forall is_text_message ms -> parse (stringify (VArr ms)) = Ok (VArr ms).
Proof.
  intros Hms. unfold parse, stringify.
  destruct Hms as [| m ms Hm Hms]; [reflexivity |].
  rewrite print_value_array.
  pose proof (print_value_message_length m (print_rest "" ms) Hm) as Hlen.
  pose proof (print_rest_length ms "" Hms) as Hrest.
  assert (expect "]" (print_value m (print_rest "" ms)) = None) as Hopen.
  { destruct Hm as (r & c & ->). reflexivity. }
  cbn [String.length parse_value].
  rewrite expect_hit by reflexivity. rewrite Hopen.
  rewrite parse_items_messages by (try assumption; lia).
  reflexivity.
Qed.

Lemma stringify_array_nonempty (vs : list value) : stringify (VArr vs) <> "".
Proof. unfold stringify. simpl. discriminate. Qed.

Lemma item_lookup_insert (k v : string) (l : list (string * string)) :
  item_lookup k (item_insert k v l) = Some v.
Proof.
  induction l as [| [k' v'] l IH]; simpl.
  - rewrite String.eqb_refl. reflexivity.
  - destruct (String.eqb k k') eqn:Hk; simpl.
    + rewrite String.eqb_refl. reflexivity.
    + rewrite Hk. exact IH.
Qed.

Lemma mem_getItem_setItem (st st' : MemStorage) (k v : string) :
  mem_setItem st k v = Ok st' -> mem_getItem st' k = Ok (Some v).
Proof.
  unfold mem_setItem, mem_getItem. intros Hset.
  destruct (denied st) eqn:Hdenied; [discriminate |].
  destruct (_ <=? _)%nat; [| discriminate].
  injection Hset as <-. cbn [denied items]. rewrite item_lookup_insert. reflexivity.
Qed.

#[export] Instance host_laws : HostLaws host.
Proof.
  split.
  - intros st k v st'. apply mem_getItem_setItem.
  - reflexivity.
  - exact stringify_array_nonempty.
  - exact parse_stringify_messages.
Qed.

End ReferenceFacts.

(** ** Running the script *)

(** Symbolic execution of the script monad: unfold the monad and the page
    accessors, and nothing of the host. *)
Ltac run :=
  cbv beta iota zeta delta
    [mbind mret M_bind M_ret outcome_bind outcome_ret gets modify lift throw try_catch
     localStorage_getItem localStorage_setItem console_log
     createElement appendChild set_textContent appendMessage
     appendTypingIndicator remove
     set_localStorage set_userName set_history set_chatWindow
     set_latestQuestionEl set_userInput_value set_console set_requests
     set_next_id
     localStorage userName history chatWindow latestQuestionEl
     userInput_value console requests next_id fst snd];
  cbn [has_text].

Section ScriptFacts.
Context {host : Host}.

(** A run is known once its outcome is. *)
Lemma run_eq {A} (m : M A) (p : Page) (a : outcome A) :
  (m p).1 = a → m p = (a, (m p).2).
Proof. intros <-. apply surjective_pairing. Qed.

Lemma saveHistory_run (h : list value) (p : Page) :
  saveHistory h p = (Ok tt, after_save h p).
Proof.
  unfold saveHistory, after_save. run.
  destruct p; run. destruct (setItem _ _ _); reflexivity.
Qed.

Lemma after_save_fields (h : list value) (p : Page) :
  history (after_save h p) = history p
  ∧ chatWindow (after_save h p) = chatWindow p
  ∧ next_id (after_save h p) = next_id p
  ∧ requests (after_save h p) = requests p
  ∧ userName (after_save h p) = userName p
  ∧ userInput_value (after_save h p) = userInput_value p
  ∧ latestQuestionEl (after_save h p) = latestQuestionEl p.
Proof. unfold after_save. destruct (setItem _ _ _); repeat split; reflexivity. Qed.

Lemma append_history_run (m : value) (p : Page) :
  append_history m p
  = (Ok tt, after_save (push_bounded (history p) m)
                       (set_history (push_bounded (history p) m) p)).
Proof.
  unfold append_history. run. rewrite saveHistory_run. reflexivity.
Qed.

Lemma loadHistory_run (p : Page) :
  loadHistory p
  = (Ok match getItem (localStorage p) HISTORY_KEY with
        | Ok stored =>
            match JSON_parse (or_else stored "[]") with
            | Ok v => v
            | Throw _ => VArr []
            end
        | Throw _ => VArr []
        end, p).
Proof.
  unfold loadHistory. run.
  destruct (getItem _ _) as [stored |]; [| reflexivity].
  destruct (JSON_parse _); reflexivity.
Qed.


Lemma remove_run (el : Element) (p : Page) :
  remove el p
  = (Ok tt, set_chatWindow (filter (fun x => el_id x ≠ el_id el) (chatWindow p)) p).
Proof. reflexivity. Qed.

Lemma filter_fresh (n : nat) (l : list Element) :
  Forall (fun x => el_id x < n) l →
  filter (fun x => el_id x ≠ n) l = l.
Proof.
  induction 1 as [| x l Hx Hl IH]; [reflexivity |].
  rewrite filter_cons_True by lia. rewrite IH. reflexivity.
Qed.

Lemma get_prop_ok (v : value) (k : string) :
  nullish v = false → ∃ u, get_prop v k = Ok u.
Proof. destruct v; simpl; intros; eauto; discriminate. Qed.

Lemma index0_ok (v : value) :
  nullish v = false → ∃ u, index0 v = Ok u.
Proof. destruct v as [| | | | [] | |]; simpl; intros; eauto; discriminate. Qed.

Lemma extract_reply_shape (data reply : value) :
  extract_reply data = Ok reply →
  reply = VUndef ∨ ∃ c : string, reply = VStr (trim c).
Proof.
  unfold extract_reply, opt_chain. intros H.
  destruct (nullish data) eqn:E0; [left; congruence |].
  destruct (get_prop_ok data "choices" E0) as [cs Hcs]. rewrite Hcs in H. cbn in H.
  destruct (nullish cs) eqn:E1; [left; congruence |].
  destruct (index0_ok cs E1) as [f Hf]. rewrite Hf in H. cbn in H.
  destruct (nullish f) eqn:E2; [left; congruence |].
  destruct (get_prop_ok f "message" E2) as [m Hm]. rewrite Hm in H. cbn in H.
  destruct (nullish m) eqn:E3; [left; congruence |].
  destruct (get_prop_ok m "content" E3) as [c Hc]. rewrite Hc in H. cbn in H.
  destruct (nullish c) eqn:E4; [left; congruence |].
  destruct c; simpl in H, E4; try discriminate.
  injection H as <-. right. eexists. reflexivity.
Qed.

Lemma extract_reply_has_text (data reply : value) :
  extract_reply data = Ok reply → has_text reply = true.
Proof.
  intros H. destruct (extract_reply_shape data reply H) as [-> | [c ->]]; reflexivity.
Qed.

Lemma submit_resume_run (el : Element) (net : fetch_result) (p : Page) :
  ∃ p',
    submit_resume el net p = (Ok tt, p')
    ∧ chatWindow p'
      = filter (fun x => el_id x ≠ el_id el) (chatWindow p)
          ++ [mkElement (next_id p) "msg ai" None (TextContent (closing_text (settle net)))]
    ∧ history p' = closing_history (settle net) (history p)
    ∧ next_id p' = S (next_id p)
    ∧ requests p' = requests p
    ∧ userName p' = userName p.
Proof.
  unfold submit_resume, on_settled, on_error, settle, reply_of, resp_json, resp_text.
  destruct p as [st name h w lq inp con reqs n].
  destruct net as [e | resp]; run.
  - eexists; repeat split; reflexivity.
  - destruct (resp_ok resp); cbn [negb]; run.
    + destruct (resp_body resp) as [body | e]; run.
      2: { rewrite list_filter_filter. eexists; repeat split; try reflexivity.
           cbn. f_equal. apply list_filter_iff. tauto. }
      destruct (JSON_parse body) as [data | e]; run.
      2: { eexists; repeat split; try reflexivity.
           cbn. f_equal. rewrite list_filter_filter. apply list_filter_iff. tauto. }
      destruct (extract_reply data) as [reply | e] eqn:Hreply; run.
      2: { eexists; repeat split; try reflexivity.
           cbn. f_equal. rewrite list_filter_filter. apply list_filter_iff. tauto. }
      destruct (truthy reply); run.
      * rewrite (extract_reply_has_text _ _ Hreply). run.
        rewrite append_history_run. run. unfold after_save. run.
        destruct (setItem _ _ _); eexists; repeat split; reflexivity.
      * eexists; repeat split; reflexivity.
    + destruct (resp_body resp) as [body | e]; run.
      * eexists; repeat split; reflexivity.
      * eexists; repeat split; try reflexivity.
        cbn. f_equal. rewrite list_filter_filter. apply list_filter_iff. tauto.
Qed.


Lemma push_bounded_Forall (P : value → Prop) (h : list value) (m : value) :
  Forall P h → P m → Forall P (push_bounded h m).
Proof.
  intros Hh Hm. unfold push_bounded. cbv zeta.
  assert (Forall P (h ++ [m])) by (apply Forall_app; auto).
  destruct (_ <? _)%nat; [apply Forall_drop |]; assumption.
Qed.

Lemma push_bounded_incl (h : list value) (m x : value) :
  x ∈ push_bounded h m → x ∈ h ∨ x = m.
Proof.
  unfold push_bounded. cbv zeta. intros Hx.
  assert (x ∈ h ++ [m]) as Hin.
  { destruct (_ <? _)%nat; [| assumption].
    unfold slice_last in Hx. eapply subseteq_drop; eassumption. }
  apply elem_of_app in Hin as [? | Hin]; [auto |].
  apply list_elem_of_singleton in Hin. auto.
Qed.

Lemma submit_begin_empty (p : Page) :
  trim (userInput_value p) = "" → submit_begin p = (Ok None, p).
Proof.
  destruct p as [st name h w lq inp con reqs n]. cbn. intros Hempty.
  unfold submit_begin. run. rewrite Hempty. reflexivity.
Qed.

Lemma submit_begin_run (p : Page) :
  trim (userInput_value p) ≠ "" →
  submit_begin p
  = match messagesToSend (userName p) (push_bounded (history p) (user_entry p)) with
    | Ok msgs =>
        (Ok (Some (typing_indicator (S (next_id p)))),
         set_requests (requests p ++ [worker_request msgs]) (begun p))
    | Throw e => (Throw e, begun p)
    end.
Proof.
  destruct p as [st name h w lq inp con reqs n]. cbn.
  intros Hne. apply String.eqb_neq in Hne.
  unfold submit_begin, setLatestQuestion, begun, user_entry. run.
  rewrite Hne. run. rewrite append_history_run. unfold after_save. run.
  destruct (setItem _ _ _); run.
  all: destruct (messagesToSend _ _); run.
  all: rewrite <- app_assoc; reflexivity.
Qed.


End ScriptFacts.

(** ** Building the outbound messages *)

Lemma project_message_message (r c : value) :
  project_message (message r c) = Ok (message r c).
Proof. reflexivity. Qed.

Lemma mapM_project_messages (h : list value) :
  Forall is_message h → mapM project_message h = Ok h.
Proof.
  induction 1 as [| m h (r & c & ->) Hh IH]; [reflexivity |].
  cbn [mapM]. rewrite project_message_message. cbn. rewrite IH. reflexivity.
Qed.

Lemma messagesToSend_messages (name : string) (h : list value) :
  Forall is_message h →
  messagesToSend name h = Ok (text_message "system" (systemPromptFor name) :: h).
Proof.
  intros Hh. unfold messagesToSend. rewrite mapM_project_messages by assumption.
  reflexivity.
Qed.

(** In general each entry is sent as its role and its content. *)
Lemma project_message_projects (m : value) :
  nullish m = false →
  ∃ r c, get_prop m "role" = Ok r ∧ get_prop m "content" = Ok c
         ∧ project_message m = Ok (message r c).
Proof.
  intros Hm. unfold project_message.
  destruct (get_prop_ok m "role" Hm) as [r Hr].
  destruct (get_prop_ok m "content" Hm) as [c Hc].
  exists r, c. rewrite Hr, Hc. auto.
Qed.

Lemma project_message_ok (m : value) :
  nullish m = false → ∃ v, project_message m = Ok v.
Proof.
  intros Hm. unfold project_message.
  destruct (get_prop_ok m "role" Hm) as [r ->].
  destruct (get_prop_ok m "content" Hm) as [c ->]. cbn. eauto.
Qed.

Lemma messagesToSend_ok (name : string) (h : list value) :
  sendable h → ∃ msgs, messagesToSend name h = Ok msgs.
Proof.
  intros Hh. unfold messagesToSend.
  assert (∃ vs, mapM project_message h = Ok vs) as [vs ->].
  { induction Hh as [| m h Hm Hh [vs IH]]; [eexists; reflexivity |].
    destruct (project_message_ok m Hm) as [v Hv].
    cbn [mapM]. rewrite Hv. cbn. rewrite IH. cbn. eauto. }
  cbn. eauto.
Qed.

Lemma is_text_message_is_message (v : value) : is_text_message v → is_message v.
Proof. intros (r & c & ->). exists (VStr r), (VStr c). reflexivity. Qed.

Lemma is_message_sendable (h : list value) : Forall is_message h → sendable h.
Proof.
  intros Hh. eapply Forall_impl; [exact Hh |].
  intros v (r & c & ->). reflexivity.
Qed.

Section Cycle.
Context {host : Host}.

Lemma user_entry_not_nullish (p : Page) : nullish (user_entry p) = false.
Proof. reflexivity. Qed.

(** One whole submission with a non-empty input, from a page whose history
    can be sent and whose element identities are fresh. *)
Lemma submit_run (net : fetch_result) (p : Page) :
  dom_fresh p → sendable (history p) → trim (userInput_value p) ≠ "" →
  ∃ msgs p',
    messagesToSend (userName p) (push_bounded (history p) (user_entry p)) = Ok msgs
    ∧ submit net p = (Ok tt, p')
    ∧ chatWindow p'
      = chatWindow p
          ++ [bubble (next_id p) "user" (trim (userInput_value p));
              mkElement (S (S (next_id p))) "msg ai" None
                        (TextContent (closing_text (settle net)))]
    ∧ history p'
      = closing_history (settle net) (push_bounded (history p) (user_entry p))
    ∧ requests p' = requests p ++ [worker_request msgs]
    ∧ next_id p' = S (S (S (next_id p)))
    ∧ userName p' = userName p.
Proof.
  intros Hfresh Hsend Hne.
  destruct (messagesToSend_ok (userName p) (push_bounded (history p) (user_entry p)))
    as [msgs Hmsgs].
  { apply push_bounded_Forall; [assumption | reflexivity]. }
  destruct (submit_resume_run (typing_indicator (S (next_id p))) net
              (set_requests (requests p ++ [worker_request msgs]) (begun p)))
    as (p' & Hrun & Hwin & Hhist & Hnext & Hreq & Hname).
  exists msgs, p'. split; [assumption |].
  split.
  { unfold submit. pose proof (submit_begin_run p Hne) as Hbegin.
    rewrite Hmsgs in Hbegin.
    cbv beta delta [mbind M_bind]. rewrite Hbegin. exact Hrun. }
  repeat split; try assumption.
  rewrite Hwin. cbn [chatWindow set_requests begun el_id typing_indicator].
  rewrite filter_app.
  rewrite filter_fresh by (eapply Forall_impl; [exact Hfresh | cbn; intros; lia]).
  rewrite filter_cons_True by (cbn; lia).
  rewrite filter_cons_False by (cbn; lia).
  rewrite filter_nil, <- app_assoc. reflexivity.
Qed.

End Cycle.

Section Init.
Context {host : Host}.

Lemma load_run (p : Page) : load p = (Ok (stored_history (localStorage p)), p).
Proof.
  unfold load. cbv beta delta [mbind M_bind]. rewrite loadHistory_run.
  unfold stored_history. run.
  destruct (getItem _ _) as [stored |]; [| reflexivity].
  destruct (JSON_parse _) as [[] |]; reflexivity.
Qed.

Lemma getUserName_run (answer : option string) (p : Page) :
  ∃ o st', getUserName answer p = (o, set_localStorage st' p).
Proof.
  destruct p as [st name h w lq inp con reqs n].
  unfold getUserName. run.
  destruct (getItem st NAME_KEY) as [[stored |] | e]; run.
  - destruct (String.eqb stored ""); run.
    + destruct (setItem _ _ _); run; eexists _, _; reflexivity.
    + eexists _, _; reflexivity.
  - destruct (setItem _ _ _); run; eexists _, _; reflexivity.
  - eexists _, _; reflexivity.
Qed.

Lemma render_saved_run (m : value) (p : Page) :
  if nullish m then render_saved m p = (Throw TypeError, p)
  else ∃ cls c,
    render_saved m p
    = if has_text c
      then (Ok tt, mkPage (localStorage p) (userName p) (history p)
                     (chatWindow p ++ [mkElement (next_id p) ("msg " ++ cls) None (TextContent c)])
                     (latestQuestionEl p) (userInput_value p) (console p)
                     (requests p) (S (next_id p)))
      else (Throw TypeError, set_next_id (S (next_id p)) p).
Proof.
  destruct p as [st name h w lq inp con reqs n].
  unfold render_saved.
  destruct m; cbn [nullish]; unfold get_prop; run; try reflexivity.
  1-4: exists "ai", VUndef; reflexivity.
  eexists _, (default VUndef (lookup_prop "content" props)).
  destruct (has_text _); reflexivity.
Qed.

Lemma for_each_render_saved (h : list value) :
  ∀ p, ∃ o p',
    for_each render_saved h p = (o, p')
    ∧ history p' = history p
    ∧ localStorage p' = localStorage p
    ∧ userName p' = userName p
    ∧ requests p' = requests p
    ∧ (dom_fresh p → dom_fresh p')
    ∧ (o = Ok tt → sendable h).
Proof.
  induction h as [| m h IH]; intros p.
  - exists (Ok tt), p. repeat split; auto. intros _. constructor.
  - cbn [for_each]. cbv beta delta [mbind M_bind].
    pose proof (render_saved_run m p) as Hm.
    destruct (nullish m) eqn:Hnull.
    + rewrite Hm. exists (Throw TypeError), p. repeat split; auto. discriminate.
    + destruct Hm as (cls & c & ->).
      destruct (has_text c).
      2: { exists (Throw TypeError), (set_next_id (S (next_id p)) p).
           destruct p as [st name h0 w lq inp con reqs n].
           repeat split; auto; [| discriminate].
           unfold dom_fresh. cbn. intros Hp.
           eapply Forall_impl; [exact Hp | cbn; intros; lia]. }
      match goal with |- context [for_each render_saved h ?q] =>
        destruct (IH q) as (o & p' & -> & Hh & Hst & Hname & Hreq & Hfresh & Hsend)
      end.
      cbn in Hh, Hst, Hname, Hreq.
      exists o, p'. split; [reflexivity |].
      do 4 (split; [assumption |]). split.
      * intros Hp. apply Hfresh. unfold dom_fresh in *. cbn.
        apply Forall_app. split.
        -- eapply Forall_impl; [exact Hp | cbn; intros; lia].
        -- repeat constructor.
      * intros Ho. constructor; [assumption | exact (Hsend Ho)].
Qed.

Lemma init_welcome (answer : option string) (p0 p1 : Page) (name : string) :
  getUserName answer p0 = (Ok name, p1) →
  stored_history (localStorage p1) = [] →
  init answer p0 = (Ok tt, welcomed name p1).
Proof.
  destruct p1 as [st name1 h w lq inp con reqs n]. cbn [localStorage].
  intros Hname Hempty. unfold init. cbv beta delta [mbind M_bind].
  rewrite Hname. run. rewrite load_run. run. rewrite Hempty.
  cbn [length Nat.eqb]. run.
  rewrite saveHistory_run. reflexivity.
Qed.

Lemma init_saved (answer : option string) (p0 p1 : Page) (name : string) :
  getUserName answer p0 = (Ok name, p1) →
  stored_history (localStorage p1) ≠ [] →
  init answer p0
  = for_each render_saved (stored_history (localStorage p1))
      (set_history (stored_history (localStorage p1)) (set_userName name p1)).
Proof.
  destruct p1 as [st name1 h1 w lq inp con reqs n]. cbn [localStorage].
  intros Hname Hsaved. unfold init. cbv beta delta [mbind M_bind].
  rewrite Hname. run. rewrite load_run. run.
  destruct (stored_history st) as [| m h] eqn:Hstored; [congruence |].
  reflexivity.
Qed.

Lemma init_throws (answer : option string) (p0 p1 : Page) (e : exn) :
  getUserName answer p0 = (Throw e, p1) → init answer p0 = (Throw e, p1).
Proof.
  intros Hname. unfold init. cbv beta delta [mbind M_bind]. rewrite Hname.
  reflexivity.
Qed.

End Init.

Section Invariant.
Context {host : Host}.

Lemma dom_fresh_append (w : list Element) (n : nat) (els : list Element) (n' : nat) :
  Forall (fun el => el_id el < n) w →
  Forall (fun el => el_id el < n') els → n <= n' →
  Forall (fun el => el_id el < n') (w ++ els).
Proof.
  intros Hw Hels Hle. apply Forall_app. split; [| assumption].
  eapply Forall_impl; [exact Hw | cbn; intros; lia].
Qed.

Lemma after_save_dom_fresh (h : list value) (p : Page) :
  dom_fresh p → dom_fresh (after_save h p).
Proof.
  unfold dom_fresh.
  destruct (after_save_fields h p) as (_ & -> & -> & _). auto.
Qed.

Lemma init_invariant (answer : option string) (p0 p : Page) :
  dom_fresh p0 → init answer p0 = (Ok tt, p) →
  dom_fresh p ∧ sendable (history p).
Proof.
  intros Hfresh Hinit.
  destruct (getUserName_run answer p0) as ([name | e] & st' & Hname).
  2: { rewrite (init_throws _ _ _ _ Hname) in Hinit. discriminate. }
  destruct (stored_history (localStorage (set_localStorage st' p0)))
    as [| m h] eqn:Hstored.
  - rewrite (init_welcome _ _ _ _ Hname Hstored) in Hinit.
    injection Hinit as <-. unfold welcomed. cbv zeta. split.
    + apply after_save_dom_fresh. unfold dom_fresh in *. cbn.
      eapply dom_fresh_append; [exact Hfresh | repeat constructor | lia].
    + destruct (after_save_fields
                  [text_message "assistant" (welcomeFor name)]
                  (mkPage st' name [text_message "assistant" (welcomeFor name)]
                     (chatWindow p0 ++ [bubble (next_id p0) "ai" (welcomeFor name)])
                     (latestQuestionEl p0) (userInput_value p0) (console p0)
                     (requests p0) (S (next_id p0)))) as (Hh & _).
      cbn in Hh |- *. rewrite Hh. repeat constructor.
  - rewrite (init_saved _ _ _ _ Hname) in Hinit by (rewrite Hstored; discriminate).
    rewrite Hstored in Hinit.
    destruct (for_each_render_saved (m :: h)
                (set_history (m :: h) (set_userName name (set_localStorage st' p0))))
      as (o & p' & Hrun & Hh & _ & _ & _ & Hf & Hsend).
    rewrite Hrun in Hinit. injection Hinit as -> ->. split.
    + apply Hf. exact Hfresh.
    + rewrite Hh. cbn. apply Hsend. reflexivity.
Qed.

Lemma begun_invariant (p : Page) :
  dom_fresh p → sendable (history p) →
  dom_fresh (begun p) ∧ sendable (history (begun p)).
Proof.
  intros Hfresh Hsend. unfold dom_fresh, begun in *. cbn. split.
  - eapply dom_fresh_append; [exact Hfresh | | lia].
    repeat constructor; cbn; lia.
  - apply push_bounded_Forall; [assumption | reflexivity].
Qed.

Lemma submit_begin_invariant (p : Page) :
  dom_fresh p → sendable (history p) →
  dom_fresh (submit_begin p).2 ∧ sendable (history (submit_begin p).2).
Proof.
  intros Hfresh Hsend.
  destruct (decide (trim (userInput_value p) = "")) as [Hempty | Hne].
  - rewrite submit_begin_empty by assumption. auto.
  - rewrite submit_begin_run by assumption.
    destruct (messagesToSend _ _); cbn [snd]; [| apply begun_invariant; assumption].
    destruct (begun_invariant p Hfresh Hsend). auto.
Qed.

Lemma submit_resume_invariant (el : Element) (net : fetch_result) (p : Page) :
  dom_fresh p → sendable (history p) →
  dom_fresh (submit_resume el net p).2 ∧ sendable (history (submit_resume el net p).2).
Proof.
  intros Hfresh Hsend.
  destruct (submit_resume_run el net p) as (p' & -> & Hwin & Hhist & Hnext & _).
  cbn [snd]. unfold dom_fresh in *. rewrite Hwin, Hnext, Hhist. split.
  - eapply (dom_fresh_append _ (S (next_id p))); [| repeat constructor | lia].
    apply Forall_forall. intros x Hx. apply list_elem_of_filter in Hx as [_ Hx].
    rewrite Forall_forall in Hfresh. specialize (Hfresh x Hx). lia.
  - destruct (settle net); cbn; try assumption.
    apply push_bounded_Forall; [assumption | reflexivity].
Qed.

Lemma reachable_invariant (p : Page) :
  reachable p → dom_fresh p ∧ sendable (history p).
Proof.
  induction 1 as [p0 answer p Hfresh Hinit | p text _ IH | p _ IH | p el net _ IH].
  - eapply init_invariant; eassumption.
  - exact IH.
  - apply submit_begin_invariant; apply IH.
  - apply submit_resume_invariant; apply IH.
Qed.

Lemma submit_unfold (net : fetch_result) (p : Page) :
  submit net p
  = match submit_begin p with
    | (Ok (Some typingEl), p1) => submit_resume typingEl net p1
    | (Ok None, p1) => (Ok tt, p1)
    | (Throw e, p1) => (Throw e, p1)
    end.
Proof.
  unfold submit. cbv beta delta [mbind M_bind].
  destruct (submit_begin p) as [[[el |] | e] p1]; reflexivity.
Qed.

Lemma reachable_submit (net : fetch_result) (p : Page) :
  reachable p → reachable (submit net p).2.
Proof.
  intros Hp. rewrite submit_unfold.
  pose proof (reach_begin p Hp) as Hbegin.
  destruct (submit_begin p) as [[[el |] | e] p1]; cbn [snd] in *; try assumption.
  apply reach_resume. assumption.
Qed.

End Invariant.


(** ** The properties of the specification *)

Section Claims.
Context {host : Host}.

Lemma for_each_append_history (ms : list value) :
  ∀ p, ∃ p',
    for_each append_history ms p = (Ok tt, p')
    ∧ history p' = foldl push_bounded (history p) ms.
Proof.
  induction ms as [| m ms IH]; intros p.
  - exists p. split; reflexivity.
  - cbn [for_each foldl]. cbv beta delta [mbind M_bind].
    rewrite append_history_run.
    match goal with |- context [for_each append_history ms ?q] =>
      destruct (IH q) as (p' & -> & Hh)
    end.
    exists p'. split; [reflexivity |]. rewrite Hh.
    destruct (after_save_fields (push_bounded (history p) m)
                (set_history (push_bounded (history p) m) p)) as (-> & _).
    reflexivity.
Qed.

(** C1. After more than [MAX_HISTORY_MESSAGES] appends, from any page, the
    history holds exactly the last [MAX_HISTORY_MESSAGES] entries appended,
    in the order of the appends; and no single append leaves the history
    longer than the bound. *)
Theorem history_keeps_last_appends (p : Page) (ms : list value) :
  MAX_HISTORY_MESSAGES < length ms →
  history (for_each append_history ms p).2
  = drop (length ms - MAX_HISTORY_MESSAGES) ms
  ∧ length (history (for_each append_history ms p).2) = MAX_HISTORY_MESSAGES
  ∧ (∀ (q : Page) (m : value),
       (length (history (append_history m q).2) <= MAX_HISTORY_MESSAGES)%nat).
Proof.
  intros Hlong.
  destruct (for_each_append_history ms p) as (p' & -> & Hh). cbn [snd].
  assert (history p' = drop (length ms - MAX_HISTORY_MESSAGES) ms) as Hlast.
  { rewrite Hh, foldl_push_bounded by (intros ->; simpl in Hlong; lia).
    apply slice_last_app. lia. }
  split; [exact Hlast |]. split.
  - rewrite Hlast, length_drop. lia.
  - intros q m. rewrite append_history_run. cbn [snd].
    destruct (after_save_fields (push_bounded (history q) m)
                (set_history (push_bounded (history q) m) q)) as (-> & _).
    cbn. rewrite push_bounded_length. lia.
Qed.

(** C5. A submission whose input trims to the empty string changes
    nothing: the handler returns on the page it found, so the history, the
    transcript, the requests issued and the storage are all as before. *)
Theorem empty_input_is_noop (net : fetch_result) (p : Page) :
  trim (userInput_value p) = "" →
  submit net p = (Ok tt, p) ∧ submit_begin p = (Ok None, p).
Proof.
  intros Hempty. rewrite submit_unfold, submit_begin_empty by assumption.
  split; reflexivity.
Qed.

Lemma stored_history_empty `{!HostLaws host} (st : Storage) :
  no_stored_history st → stored_history st = [].
Proof.
  unfold stored_history.
  intros [Habsent | e Hthrow | text e Hget Hparse | text v Hget Hparse Harr].
  - rewrite Habsent. cbn. rewrite JSON_parse_empty_array. reflexivity.
  - rewrite Hthrow. reflexivity.
  - rewrite Hget. cbn. destruct (String.eqb text "").
    + rewrite JSON_parse_empty_array. reflexivity.
    + rewrite Hparse. reflexivity.
  - rewrite Hget. cbn. destruct (String.eqb text "").
    + rewrite JSON_parse_empty_array. reflexivity.
    + rewrite Hparse. destruct v; try reflexivity. discriminate.
Qed.

(** C2. [load] (the read of lines 94-95) never throws and leaves the page
    as it was; it returns the empty history whenever the history key holds
    no array: nothing stored, storage unreadable, text that does not parse,
    or text that parses to something else.  In particular, after a text
    that is not the text of an array was stored under the key, [load]
    returns the empty history. *)
Theorem load_recovers `{!HostLaws host} (p : Page) :
  (∃ h, load p = (Ok h, p))
  ∧ (no_stored_history (localStorage p) → load p = (Ok [], p))
  ∧ (∀ (text : string) (st' : Storage),
       setItem (localStorage p) HISTORY_KEY text = Ok st' →
       (∀ items, JSON_parse text ≠ Ok (VArr items)) →
       load (set_localStorage st' p) = (Ok [], set_localStorage st' p)).
Proof.
  split; [eexists; apply load_run |]. split.
  - intros Hbad. rewrite load_run, stored_history_empty by assumption. reflexivity.
  - intros text st' Hset Hnot. rewrite load_run. f_equal. f_equal.
    apply stored_history_empty. destruct p; cbn [localStorage set_localStorage] in *.
    apply getItem_setItem in Hset.
    destruct (JSON_parse text) as [v | e] eqn:Hparse.
    + eapply history_not_array; [exact Hset | exact Hparse |].
      destruct v; try reflexivity. exfalso. eapply Hnot. reflexivity.
    + eapply history_unparseable; eassumption.
Qed.

Lemma push_bounded_snoc (h : list value) (m : value) :
  ∃ h', push_bounded h m = h' ++ [m].
Proof.
  rewrite push_bounded_slice. unfold slice_last.
  exists (drop (length (h ++ [m]) - MAX_HISTORY_MESSAGES) h).
  apply drop_app_le. rewrite length_app. simpl. unfold MAX_HISTORY_MESSAGES. lia.
Qed.

Lemma push_bounded_last (h : list value) (m : value) :
  last (push_bounded h m) = Some m.
Proof. destruct (push_bounded_snoc h m) as [h' ->]. apply last_snoc. Qed.

Lemma stored_history_after_save `{!HostLaws host} (h : list value) (st st' : Storage) :
  Forall is_text_message h →
  setItem st HISTORY_KEY (JSON_stringify (VArr h)) = Ok st' →
  stored_history st' = h.
Proof.
  intros Hh Hset. unfold stored_history.
  rewrite (getItem_setItem _ _ _ _ Hset). cbn.
  pose proof (JSON_stringify_array_nonempty h) as Hne.
  apply String.eqb_neq in Hne. rewrite Hne.
  rewrite JSON_parse_stringify by assumption. reflexivity.
Qed.

(** C7. When the write succeeds, [append_history m] followed by [load]
    gives back the history just saved, whose last entry is [m]; the
    history and [m] are messages ([{role, content}] with text fields). *)
Theorem append_then_load `{!HostLaws host} (p : Page) (m : value) (st' : Storage) :
  Forall is_text_message (history p) → is_text_message m →
  setItem (localStorage p) HISTORY_KEY
          (JSON_stringify (VArr (push_bounded (history p) m))) = Ok st' →
  ∃ p' h,
    append_history m p = (Ok tt, p')
    ∧ load p' = (Ok h, p')
    ∧ last h = Some m
    ∧ h = history p'.
Proof.
  intros Hh Hm Hset. rewrite append_history_run.
  exists (after_save (push_bounded (history p) m)
                     (set_history (push_bounded (history p) m) p)),
         (push_bounded (history p) m).
  split; [reflexivity |].
  rewrite load_run. unfold after_save.
  destruct p as [st name h w lq inp con reqs n]; cbn [localStorage history set_history] in *.
  rewrite Hset. cbn [localStorage history set_localStorage].
  rewrite (stored_history_after_save _ _ _ (push_bounded_Forall _ _ _ Hh Hm) Hset).
  split; [reflexivity |]. split; [apply push_bounded_last | reflexivity].
Qed.

Lemma role_of_text_message (r c : string) (v : value) :
  get_prop (message (VStr r) v) "role" = Ok (VStr r).
Proof. reflexivity. Qed.

Lemma closing_history_no_system (s : settlement) (h : list value) :
  no_system h → no_system (closing_history s h).
Proof.
  intros Hh. destruct s; cbn; try assumption.
  apply push_bounded_Forall; [assumption |]. cbn. discriminate.
Qed.

Lemma submit_history (net : fetch_result) (p : Page) :
  history (submit net p).2 = history p
  ∨ history (submit net p).2 = push_bounded (history p) (user_entry p)
  ∨ history (submit net p).2
    = closing_history (settle net) (push_bounded (history p) (user_entry p)).
Proof.
  rewrite submit_unfold.
  destruct (decide (trim (userInput_value p) = "")) as [Hempty | Hne].
  - rewrite submit_begin_empty by assumption. left. reflexivity.
  - rewrite submit_begin_run by assumption.
    destruct (messagesToSend _ _) as [msgs | e]; [| right; left; reflexivity].
    destruct (submit_resume_run (typing_indicator (S (next_id p))) net
                (set_requests (requests p ++ [worker_request msgs]) (begun p)))
      as (p' & -> & _ & Hhist & _).
    right. right. cbn [snd]. rewrite Hhist. reflexivity.
Qed.

Lemma append_length (s t : string) :
  String.length (s ++ t)%string = String.length s + String.length t.
Proof. induction s as [| c s IH]; simpl; [reflexivity | rewrite IH; reflexivity]. Qed.

Lemma append_inv_tail (s1 s2 t : string) :
  (s1 ++ t)%string = (s2 ++ t)%string → s1 = s2.
Proof.
  revert s2. induction s1 as [| c s1 IH]; intros [| d s2] Heq.
  - reflexivity.
  - apply (f_equal String.length) in Heq.
    rewrite !append_length in Heq. simpl in Heq. lia.
  - apply (f_equal String.length) in Heq.
    rewrite !append_length in Heq. simpl in Heq. lia.
  - simpl in Heq. injection Heq as -> Heq. f_equal. apply IH. exact Heq.
Qed.

Lemma append_inv_head (s t1 t2 : string) :
  (s ++ t1)%string = (s ++ t2)%string → t1 = t2.
Proof.
  induction s as [| c s IH]; simpl; intros Heq; [exact Heq |].
  injection Heq as Heq. apply IH. exact Heq.
Qed.

Lemma systemPromptFor_inj (n1 n2 : string) :
  systemPromptFor n1 = systemPromptFor n2 → n1 = n2.
Proof.
  unfold systemPromptFor. intros Heq.
  do 3 apply append_inv_head in Heq.
  exact (append_inv_tail _ _ _ Heq).
Qed.

(** C4. For a history of messages, the list sent is the system message
    built from the name, followed by the history as it is.  The content of
    the system message is the fixed instructions, a line feed, and the
    sentence that names the user, so that two names never give the same
    system message.  This is the list a submission puts into its request;
    and a submission never stores an entry of role [system]. *)
Theorem outbound_is_system_then_history (name : string) (h : list value) :
  Forall is_message h →
  messagesToSend name h = Ok (text_message "system" (systemPromptFor name) :: h)
  ∧ messagesToSend name h
    = Ok (VObj [("role", VStr "system");
                ("content",
                 VStr (baseSystemPrompt ++ lf ++ "User name: " ++ name
                         ++ ". Use the user's name when appropriate.")%string)]
            :: h)
  ∧ (∀ other : string,
       messagesToSend other h = messagesToSend name h → other = name)
  ∧ ∀ (net : fetch_result) (p : Page),
      history p = h → userName p = name →
      (trim (userInput_value p) ≠ "" →
       requests (submit net p).2
       = requests p
           ++ [worker_request
                 (text_message "system" (systemPromptFor name)
                    :: push_bounded h (user_entry p))])
      ∧ (no_system h → no_system (history (submit net p).2)).
Proof.
  intros Hh. split; [apply messagesToSend_messages; assumption |].
  split; [apply messagesToSend_messages; assumption |].
  split.
  { intros other. rewrite !messagesToSend_messages by assumption.
    intros Heq. apply systemPromptFor_inj. revert Heq.
    generalize (systemPromptFor other), (systemPromptFor name).
    intros a b [= Heq]. exact Heq. }
  intros net p <- <-. split.
  - intros Hne. rewrite submit_unfold, submit_begin_run by assumption.
    rewrite messagesToSend_messages
      by (apply push_bounded_Forall; [assumption | eexists _, _; reflexivity]).
    match goal with |- context [submit_resume ?el net ?q] =>
      destruct (submit_resume_run el net q) as (p' & -> & _ & _ & _ & Hreq & _)
    end.
    cbn [snd]. rewrite Hreq. reflexivity.
  - intros Hsys.
    destruct (submit_history net p) as [-> | [-> | ->]]; [assumption | |].
    + apply push_bounded_Forall; [assumption | cbn; discriminate].
    + apply closing_history_no_system.
      apply push_bounded_Forall; [assumption | cbn; discriminate].
Qed.

Lemma reply_of_shape (resp : Response) (reply : value) :
  reply_of resp = Ok reply →
  reply = VUndef ∨ ∃ c : string, reply = VStr (trim c).
Proof.
  unfold reply_of. destruct (resp_json resp) as [data | e]; [| discriminate].
  apply extract_reply_shape.
Qed.

Lemma settle_without_reply (resp : Response) :
  resp_ok resp = true →
  (∀ s : string, reply_of resp = Ok (VStr s) → s = "") →
  settle (FetchResolved resp)
  = match reply_of resp with
    | Ok _ => NoReply
    | Throw _ => Failed
    end.
Proof.
  intros Hok Hnone. unfold settle. rewrite Hok.
  destruct (reply_of resp) as [reply | e] eqn:Hreply; [| reflexivity].
  destruct (reply_of_shape _ _ Hreply) as [-> | [c ->]]; [reflexivity |].
  rewrite (Hnone _ eq_refl). reflexivity.
Qed.

Lemma settle_replied (net : fetch_result) (reply : value) :
  settle net = Replied reply →
  ∃ c : string, reply = VStr (trim c) ∧ trim c ≠ "".
Proof.
  unfold settle. destruct net as [e | resp]; [discriminate |].
  destruct (resp_ok resp); [| destruct (resp_text resp); discriminate].
  destruct (reply_of resp) as [v | e] eqn:Hreply; [| discriminate].
  destruct (truthy v) eqn:Htruthy; [| discriminate].
  intros [= <-].
  destruct (reply_of_shape _ _ Hreply) as [-> | [c ->]]; [discriminate |].
  exists c. split; [reflexivity |].
  cbn in Htruthy. apply negb_true_iff, String.eqb_neq in Htruthy. exact Htruthy.
Qed.

(** The transcript after a whole submission no longer holds the typing
    indicator the submission showed. *)
Lemma typing_indicator_gone (p : Page) (w : list Element) (closing : Element) :
  dom_fresh p →
  el_id closing = S (S (next_id p)) →
  w = chatWindow p ++ [bubble (next_id p) "user" (trim (userInput_value p)); closing] →
  Forall (fun el => el_id el ≠ S (next_id p)) w.
Proof.
  intros Hfresh Hid ->. apply Forall_app. split.
  - eapply Forall_impl; [exact Hfresh | cbn; intros; lia].
  - repeat constructor; cbn; lia.
Qed.

(** C3 (amended). After a success status without a usable reply, the
    typing indicator is gone, the history has gained the user's entry and
    nothing else, and one notice closes the exchange: the "no reply" notice
    when the body parsed and held no text, the "network error" notice when
    the body could not be read or parsed or its content was not a string. *)
Theorem success_without_reply (p : Page) (resp : Response) :
  reachable p →
  trim (userInput_value p) ≠ "" →
  resp_ok resp = true →
  (∀ s : string, reply_of resp = Ok (VStr s) → s = "") →
  ∃ p',
    submit (FetchResolved resp) p = (Ok tt, p')
    ∧ history p' = push_bounded (history p) (user_entry p)
    ∧ chatWindow p'
      = chatWindow p
          ++ [bubble (next_id p) "user" (trim (userInput_value p));
              bubble (S (S (next_id p))) "ai"
                     match reply_of resp with
                     | Ok _ => NO_REPLY_NOTICE
                     | Throw _ => NETWORK_ERROR_NOTICE
                     end]
    ∧ Forall (fun el => el_id el ≠ S (next_id p)) (chatWindow p').
Proof.
  intros Hreach Hne Hok Hnone.
  destruct (reachable_invariant p Hreach) as [Hfresh Hsend].
  destruct (submit_run (FetchResolved resp) p Hfresh Hsend Hne)
    as (msgs & p' & _ & Hrun & Hwin & Hhist & _).
  rewrite settle_without_reply in Hwin, Hhist by assumption.
  assert (chatWindow p'
          = chatWindow p
              ++ [bubble (next_id p) "user" (trim (userInput_value p));
                  bubble (S (S (next_id p))) "ai"
                         match reply_of resp with
                         | Ok _ => NO_REPLY_NOTICE
                         | Throw _ => NETWORK_ERROR_NOTICE
                         end]) as Hwin'.
  { rewrite Hwin. destruct (reply_of resp); reflexivity. }
  exists p'. split; [exact Hrun |]. split.
  { rewrite Hhist. destruct (reply_of resp); reflexivity. }
  split; [exact Hwin' |].
  eapply typing_indicator_gone; [exact Hfresh | | exact Hwin']. reflexivity.
Qed.

Lemma settle_error_status (resp : Response) :
  resp_ok resp = false →
  settle (FetchResolved resp)
  = match resp_text resp with
    | Ok _ => ServerError
    | Throw _ => Failed
    end.
Proof. intros Hok. unfold settle. rewrite Hok. reflexivity. Qed.

(** C6 (amended). After a response whose status is not a success, the
    typing indicator is gone, the history has gained the user's entry and
    nothing else (one entry more when it was below the bound), and one
    notice closes the exchange: the "server error" notice when the body of
    the response could be read, the "network error" notice when reading it
    failed. *)
Theorem error_status_keeps_history (p : Page) (resp : Response) :
  reachable p →
  trim (userInput_value p) ≠ "" →
  resp_ok resp = false →
  ∃ p',
    submit (FetchResolved resp) p = (Ok tt, p')
    ∧ history p' = push_bounded (history p) (user_entry p)
    ∧ (length (history p) < MAX_HISTORY_MESSAGES →
       history p' = history p ++ [user_entry p])
    ∧ chatWindow p'
      = chatWindow p
          ++ [bubble (next_id p) "user" (trim (userInput_value p));
              bubble (S (S (next_id p))) "ai"
                     match resp_text resp with
                     | Ok _ => SERVER_ERROR_NOTICE
                     | Throw _ => NETWORK_ERROR_NOTICE
                     end]
    ∧ Forall (fun el => el_id el ≠ S (next_id p)) (chatWindow p').
Proof.
  intros Hreach Hne Hok.
  destruct (reachable_invariant p Hreach) as [Hfresh Hsend].
  destruct (submit_run (FetchResolved resp) p Hfresh Hsend Hne)
    as (msgs & p' & _ & Hrun & Hwin & Hhist & _).
  rewrite settle_error_status in Hwin, Hhist by assumption.
  assert (history p' = push_bounded (history p) (user_entry p)) as Hhist'.
  { rewrite Hhist. destruct (resp_text resp); reflexivity. }
  assert (chatWindow p'
          = chatWindow p
              ++ [bubble (next_id p) "user" (trim (userInput_value p));
                  bubble (S (S (next_id p))) "ai"
                         match resp_text resp with
                         | Ok _ => SERVER_ERROR_NOTICE
                         | Throw _ => NETWORK_ERROR_NOTICE
                         end]) as Hwin'.
  { rewrite Hwin. destruct (resp_text resp); reflexivity. }
  exists p'. split; [exact Hrun |]. split; [exact Hhist' |]. split.
  { intros Hshort. rewrite Hhist'. unfold push_bounded. cbv zeta.
    destruct (Nat.ltb_spec MAX_HISTORY_MESSAGES (length (history p ++ [user_entry p])))
      as [Hlong | _]; [| reflexivity].
    rewrite length_app in Hlong. simpl in Hlong. lia. }
  split; [exact Hwin' |].
  eapply typing_indicator_gone; [exact Hfresh | | exact Hwin']. reflexivity.
Qed.

Lemma remove_twice (el : Element) (p : Page) :
  remove el (remove el p).2 = (Ok tt, (remove el p).2).
Proof.
  rewrite !remove_run. destruct p. unfold set_chatWindow. cbn. do 2 f_equal.
  rewrite list_filter_filter. apply list_filter_iff. intros x. tauto.
Qed.

Lemma remove_detached (el : Element) (p : Page) :
  Forall (fun x => el_id x ≠ el_id el) (chatWindow p) → remove el p = (Ok tt, p).
Proof.
  intros Hgone. rewrite remove_run. destruct p as [st name h w lq inp con reqs n].
  unfold set_chatWindow. cbn in *. do 2 f_equal.
  induction Hgone as [| x l Hx Hl IH]; [reflexivity |].
  rewrite filter_cons_True by assumption. rewrite IH. reflexivity.
Qed.

(** C8. Whatever the request ends with, a submission with a non-empty
    input completes, the typing indicator it showed is no longer in the
    transcript, and every element that was there before still is.
    Removing an element never throws; removing it again, or removing one
    that is not in the transcript, changes nothing. *)
Theorem typing_indicator_removed (net : fetch_result) (p : Page) :
  reachable p →
  trim (userInput_value p) ≠ "" →
  (∃ p1, submit_begin p = (Ok (Some (typing_indicator (S (next_id p)))), p1)
         ∧ typing_indicator (S (next_id p)) ∈ chatWindow p1)
  ∧ (∃ p' closing,
       submit net p = (Ok tt, p')
       ∧ chatWindow p'
         = chatWindow p
             ++ [bubble (next_id p) "user" (trim (userInput_value p)); closing]
       ∧ Forall (fun el => el_id el ≠ S (next_id p)) (chatWindow p'))
  ∧ (∀ (el : Element) (q : Page),
       (∃ q', remove el q = (Ok tt, q'))
       ∧ remove el (remove el q).2 = (Ok tt, (remove el q).2)
       ∧ (Forall (fun x => el_id x ≠ el_id el) (chatWindow q) →
          remove el q = (Ok tt, q))).
Proof.
  intros Hreach Hne.
  destruct (reachable_invariant p Hreach) as [Hfresh Hsend].
  destruct (submit_run net p Hfresh Hsend Hne)
    as (msgs & p' & Hmsgs & Hrun & Hwin & _).
  split.
  { eexists. rewrite submit_begin_run, Hmsgs by assumption.
    split; [reflexivity |]. cbn. apply elem_of_app. right.
    apply list_elem_of_In. cbn. auto. }
  split.
  { eexists p', _. split; [exact Hrun |]. split; [exact Hwin |].
    eapply typing_indicator_gone; [exact Hfresh | | exact Hwin]. reflexivity. }
  intros el q. split; [eexists; apply remove_run |].
  split; [apply remove_twice | apply remove_detached].
Qed.

Lemma getUserName_fields (answer : option string) (p0 p1 : Page) (o : outcome string) :
  getUserName answer p0 = (o, p1) →
  chatWindow p1 = chatWindow p0 ∧ next_id p1 = next_id p0 ∧ history p1 = history p0.
Proof.
  intros Hname. destruct (getUserName_run answer p0) as (o' & st' & Hrun).
  rewrite Hrun in Hname. injection Hname as _ <-. destruct p0; auto.
Qed.

Lemma welcomeFor_contains (name : string) :
  ∃ pre post : string, welcomeFor name = (pre ++ name ++ post)%string.
Proof. eexists _, _. unfold welcomeFor. reflexivity. Qed.

(** C9 (amended). When the stored history is empty, the initialisation
    renders exactly one bubble, the welcome to the user by name, and makes
    it the only entry of the history; the entry is persisted when the
    write succeeds (a reload then finds it) and the storage is left as it
    was when the write fails.  When the stored history is not empty, the
    initialisation appends nothing and writes nothing. *)
Theorem init_welcomes_once `{!HostLaws host}
    (answer : option string) (p0 p1 : Page) (name : string) :
  getUserName answer p0 = (Ok name, p1) →
  (load p1 = (Ok [], p1) →
   ∃ p',
     init answer p0 = (Ok tt, p')
     ∧ chatWindow p' = chatWindow p0 ++ [bubble (next_id p0) "ai" (welcomeFor name)]
     ∧ history p' = [text_message "assistant" (welcomeFor name)]
     ∧ (∃ pre post : string, welcomeFor name = (pre ++ name ++ post)%string)
     ∧ (∀ st',
          setItem (localStorage p1) HISTORY_KEY
                  (JSON_stringify (VArr [text_message "assistant" (welcomeFor name)]))
          = Ok st' →
          localStorage p' = st'
          ∧ load p' = (Ok [text_message "assistant" (welcomeFor name)], p'))
     ∧ (∀ e,
          setItem (localStorage p1) HISTORY_KEY
                  (JSON_stringify (VArr [text_message "assistant" (welcomeFor name)]))
          = Throw e →
          localStorage p' = localStorage p1))
  ∧ (∀ h, load p1 = (Ok h, p1) → h ≠ [] →
       history (init answer p0).2 = h
       ∧ localStorage (init answer p0).2 = localStorage p1).
Proof.
  intros Hname.
  destruct (getUserName_fields _ _ _ _ Hname) as (Hwin & Hnext & _).
  split.
  - intros Hload. rewrite load_run in Hload. injection Hload as Hempty.
    exists (welcomed name p1). split; [apply init_welcome; assumption |].
    unfold welcomed. cbv zeta.
    match goal with |- context [after_save ?h ?q] =>
      destruct (after_save_fields h q) as (Hh & Hw & _)
    end.
    split; [rewrite Hw; cbn; rewrite Hwin, Hnext; reflexivity |].
    split; [rewrite Hh; reflexivity |].
    split; [apply welcomeFor_contains |].
    split.
    + intros st' Hset. rewrite load_run. unfold after_save.
      cbn [localStorage]. rewrite Hset. cbn [localStorage set_localStorage].
      split; [reflexivity |].
      rewrite (stored_history_after_save [text_message "assistant" (welcomeFor name)]
                 (localStorage p1) st'); [reflexivity | | exact Hset].
      repeat constructor. eexists _, _. reflexivity.
    + intros e Hset. unfold after_save. cbn [localStorage]. rewrite Hset. reflexivity.
  - intros h Hload Hsaved. rewrite load_run in Hload. injection Hload as Hstored.
    rewrite (init_saved _ _ _ _ Hname) by (rewrite Hstored; assumption).
    rewrite Hstored.
    destruct (for_each_render_saved h (set_history h (set_userName name p1)))
      as (o & p' & -> & Hh & Hst & _).
    cbn [snd]. rewrite Hh, Hst. destruct p1; split; reflexivity.
Qed.

Lemma welcomeFor_nonempty (name : string) : welcomeFor name ≠ "".
Proof. unfold welcomeFor. discriminate. Qed.

Lemma init_history (answer : option string) (p : Page) :
  history (init answer p).2 = history p
  ∨ ∃ p1 name,
      getUserName answer p = (Ok name, p1)
      ∧ (history (init answer p).2 = stored_history (localStorage p1)
         ∨ history (init answer p).2 = [text_message "assistant" (welcomeFor name)]).
Proof.
  destruct (getUserName answer p) as [[name | e] p1] eqn:Hname.
  - right. exists p1, name. split; [reflexivity |].
    destruct (stored_history (localStorage p1)) as [| m h] eqn:Hstored.
    + right. rewrite (init_welcome _ _ _ _ Hname Hstored). cbn [snd].
      unfold welcomed. cbv zeta.
      match goal with |- context [after_save ?h ?q] =>
        destruct (after_save_fields h q) as (-> & _)
      end.
      reflexivity.
    + left. rewrite (init_saved _ _ _ _ Hname) by (rewrite Hstored; discriminate).
      rewrite Hstored.
      destruct (for_each_render_saved (m :: h)
                  (set_history (m :: h) (set_userName name p1)))
        as (o & p' & -> & Hh & _).
      cbn [snd]. rewrite Hh. destruct p1; reflexivity.
  - left. rewrite (init_throws _ _ _ _ Hname). cbn [snd].
    destruct (getUserName_fields _ _ _ _ Hname) as (_ & _ & ->). reflexivity.
Qed.

Lemma submit_appends (net : fetch_result) (p : Page) :
  history (submit net p).2 = history p
  ∨ trim (userInput_value p) ≠ ""
    ∧ (history (submit net p).2 = push_bounded (history p) (user_entry p)
       ∨ ∃ c : string,
           trim c ≠ ""
           ∧ history (submit net p).2
             = push_bounded (push_bounded (history p) (user_entry p))
                            (text_message "assistant" (trim c))).
Proof.
  rewrite submit_unfold.
  destruct (decide (trim (userInput_value p) = "")) as [Hempty | Hne].
  { rewrite submit_begin_empty by assumption. left. reflexivity. }
  right. split; [assumption |].
  rewrite submit_begin_run by assumption.
  destruct (messagesToSend _ _) as [msgs | e]; [| left; reflexivity].
  destruct (submit_resume_run (typing_indicator (S (next_id p))) net
              (set_requests (requests p ++ [worker_request msgs]) (begun p)))
    as (p' & -> & _ & Hhist & _).
  cbn [snd]. rewrite Hhist.
  destruct (settle net) as [reply | | |] eqn:Hsettle; try (left; reflexivity).
  destruct (settle_replied _ _ Hsettle) as (c & -> & Hc).
  right. exists c. split; [assumption | reflexivity].
Qed.

(** C10. What the script appends: a submission leaves the history as it
    was, or appends the user's entry, whose content is the trimmed input
    and is not empty, and after it at most one assistant entry, whose
    content is a trimmed reply and is not empty; the initialisation keeps
    the stored history or starts it with the assistant's welcome, which is
    not empty.  Hence a history of user and assistant entries with
    non-empty contents stays one. *)
Theorem appended_entries_are_valid
    (net : fetch_result) (answer : option string) (p : Page) :
  (history (submit net p).2 = history p
   ∨ trim (userInput_value p) ≠ ""
     ∧ (history (submit net p).2
        = push_bounded (history p)
                       (text_message "user" (trim (userInput_value p)))
        ∨ ∃ c : string,
            trim c ≠ ""
            ∧ history (submit net p).2
              = push_bounded
                  (push_bounded (history p)
                                (text_message "user" (trim (userInput_value p))))
                  (text_message "assistant" (trim c))))
  ∧ (history (init answer p).2 = history p
     ∨ ∃ p1 name,
         getUserName answer p = (Ok name, p1)
         ∧ (history (init answer p).2 = stored_history (localStorage p1)
            ∨ history (init answer p).2 = [text_message "assistant" (welcomeFor name)]
              ∧ welcomeFor name ≠ ""))
  ∧ (Forall valid_entry (history p) → Forall valid_entry (history (submit net p).2)).
Proof.
  split; [exact (submit_appends net p) |]. split.
  - destruct (init_history answer p) as [Hsame | (p1 & name & Hname & [Hkept | Hnew])].
    + left. exact Hsame.
    + right. exists p1, name. auto.
    + right. exists p1, name. split; [assumption |]. right.
      split; [assumption | apply welcomeFor_nonempty].
  - intros Hvalid.
    assert (∀ t, t ≠ "" → valid_entry (text_message "user" t)) as Huser.
    { intros t Ht. exists "user", t. auto. }
    assert (∀ t, t ≠ "" → valid_entry (text_message "assistant" t)) as Hassistant.
    { intros t Ht. exists "assistant", t. auto. }
    destruct (submit_appends net p) as [-> | [Hne [-> | (c & Hc & ->)]]].
    + assumption.
    + apply push_bounded_Forall; [assumption | apply Huser; assumption].
    + apply push_bounded_Forall; [| apply Hassistant; assumption].
      apply push_bounded_Forall; [assumption | apply Huser; assumption].
Qed.

End Claims.

(** ** Further properties of the script *)

(** ** Escaping the question *)

Lemma escapeHtml_cons (c : ascii) (s : string) :
  escapeHtml (String c s) = (escape_one c ++ escapeHtml s)%string.
Proof.
  unfold escapeHtml, escape_one. cbn [replace_all].
  destruct (Ascii.eqb c "&") eqn:Hamp; [reflexivity |].
  cbn [replace_all].
  destruct (Ascii.eqb c "<") eqn:Hlt; [reflexivity |].
  cbn [replace_all].
  destruct (Ascii.eqb c ">") eqn:Hgt; reflexivity.
Qed.

Lemma escapeHtml_escape_each (s : string) : escapeHtml s = escape_each s.
Proof.
  induction s as [| c s IH]; [reflexivity |].
  rewrite escapeHtml_cons, IH. reflexivity.
Qed.

Lemma occurs_app (c : ascii) (s t : string) :
  occurs c (s ++ t) = (occurs c s || occurs c t)%bool.
Proof.
  induction s as [| x s IH]; simpl; [reflexivity |].
  rewrite IH, orb_assoc. reflexivity.
Qed.

Lemma escape_one_no_angle (c : ascii) :
  occurs "<" (escape_one c) = false ∧ occurs ">" (escape_one c) = false.
Proof.
  unfold escape_one.
  destruct (Ascii.eqb c "&"); [split; reflexivity |].
  destruct (Ascii.eqb c "<") eqn:Hlt; [split; reflexivity |].
  destruct (Ascii.eqb c ">") eqn:Hgt; [split; reflexivity |].
  simpl. rewrite Hlt, Hgt. split; reflexivity.
Qed.

(** X1. The three replacements of [escapeHtml], made one after the other,
    escape every character exactly once (the ampersands written for [<]
    and [>] are not escaped again), and the result holds no [<] and no
    [>]. *)
Theorem escapeHtml_escapes_each_once (s : string) :
  escapeHtml s = escape_each s
  ∧ occurs "<" (escapeHtml s) = false
  ∧ occurs ">" (escapeHtml s) = false.
Proof.
  split; [apply escapeHtml_escape_each |].
  rewrite escapeHtml_escape_each.
  induction s as [| c s [IHlt IHgt]]; [split; reflexivity |].
  cbn [escape_each]. rewrite !occurs_app, IHlt, IHgt.
  destruct (escape_one_no_angle c) as [-> ->]. split; reflexivity.
Qed.

Lemma escape_one_head (c : ascii) :
  ∃ x rest, escape_one c = String x rest
            ∧ (x = "&"%char ∨ (x = c ∧ rest = "" ∧ Ascii.eqb c "&" = false)).
Proof.
  unfold escape_one.
  destruct (Ascii.eqb c "&") eqn:Hamp; [eexists _, _; split; [reflexivity | auto] |].
  destruct (Ascii.eqb c "<"); [eexists _, _; split; [reflexivity | auto] |].
  destruct (Ascii.eqb c ">"); eexists _, _; (split; [reflexivity | auto]).
Qed.

Lemma escape_each_inj (s t : string) :
  escape_each s = escape_each t → s = t.
Proof.
  revert t. induction s as [| c s IH]; intros [| d t] Heq.
  - reflexivity.
  - exfalso. cbn in Heq. destruct (escape_one_head d) as (x & r & Hd & _).
    rewrite Hd in Heq. discriminate.
  - exfalso. cbn in Heq. destruct (escape_one_head c) as (x & r & Hc & _).
    rewrite Hc in Heq. discriminate.
  - cbn [escape_each] in Heq. unfold escape_one in Heq.
    destruct (Ascii.eqb c "&") eqn:Hc1; destruct (Ascii.eqb d "&") eqn:Hd1;
      [| destruct (Ascii.eqb d "<") eqn:Hd2; [| destruct (Ascii.eqb d ">") eqn:Hd3]
       | destruct (Ascii.eqb c "<") eqn:Hc2; [| destruct (Ascii.eqb c ">") eqn:Hc3]
       | destruct (Ascii.eqb c "<") eqn:Hc2; [| destruct (Ascii.eqb c ">") eqn:Hc3];
         (destruct (Ascii.eqb d "<") eqn:Hd2; [| destruct (Ascii.eqb d ">") eqn:Hd3]) ];
      repeat match goal with
      | H : Ascii.eqb _ _ = true |- _ => apply Ascii.eqb_eq in H; subst
      end;
      cbn in Heq; try discriminate;
      try (injection Heq as Heq; f_equal; apply IH; assumption);
      try (injection Heq as -> Heq; f_equal; apply IH; assumption);
      try (injection Heq as Hx _; subst; cbn in *; discriminate).
Qed.

(** X2. [escapeHtml] loses nothing: two texts with the same escaped form
    are the same text. *)
Theorem escapeHtml_injective (s t : string) :
  escapeHtml s = escapeHtml t → s = t.
Proof.
  rewrite !escapeHtml_escape_each. apply escape_each_inj.
Qed.

Section Further.
Context {host : Host}.

(** ** The user's name *)

Lemma or_else_nonempty (x : option string) (d : string) :
  d ≠ "" → or_else x d ≠ "".
Proof.
  intros Hd. destruct x as [s |]; cbn; [| assumption].
  destruct (String.eqb s "") eqn:Hs; [assumption |].
  apply String.eqb_neq. assumption.
Qed.

(** X3. A name that is stored and not empty is returned as it is: the
    prompt's answer plays no part and the page is left untouched. *)
Theorem getUserName_uses_stored_name (answer : option string) (p : Page) (name : string) :
  getItem (localStorage p) NAME_KEY = Ok (Some name) →
  name ≠ "" →
  getUserName answer p = (Ok name, p).
Proof.
  destruct p as [st n0 h w lq inp con reqs n]. cbn [localStorage].
  intros Hget Hne. apply String.eqb_neq in Hne.
  unfold getUserName. run. rewrite Hget. run. rewrite Hne. reflexivity.
Qed.

(** X4. [getUserName] never returns the empty name: without a stored name
    it returns the prompt's answer, and "Friend" when the prompt was
    dismissed or left empty. *)
Theorem getUserName_never_empty (answer : option string) (p p1 : Page) (name : string) :
  getUserName answer p = (Ok name, p1) →
  name ≠ ""
  ∧ (getItem (localStorage p) NAME_KEY = Ok None →
     match answer with
     | Some s => if String.eqb s "" then name = "Friend" else name = s
     | None => name = "Friend"
     end).
Proof.
  destruct p as [st n0 h w lq inp con reqs n]. cbn [localStorage].
  unfold getUserName. run.
  destruct (getItem st NAME_KEY) as [[stored |] | e] eqn:Hget; run.
  - destruct (String.eqb stored "") eqn:Hstored; run.
    + destruct (setItem _ _ _); run; intros [= <- <-]; (split; [| discriminate]).
      apply or_else_nonempty. discriminate.
    + intros [= <- <-]. split; [| discriminate].
      apply String.eqb_neq. assumption.
  - destruct (setItem _ _ _); run; intros [= <- <-].
    split; [apply or_else_nonempty; discriminate |].
    intros _. destruct answer as [s |]; cbn; [| reflexivity].
    destruct (String.eqb s ""); reflexivity.
  - discriminate.
Qed.

(** X5. Without a stored name, the answer (or "Friend") is returned and
    stored; once it is stored, every later call returns it without asking
    and without writing. *)
Theorem getUserName_asks_once `{!HostLaws host}
    (answer : option string) (p : Page) (st' : Storage) :
  getItem (localStorage p) NAME_KEY = Ok None →
  setItem (localStorage p) NAME_KEY (or_else answer "Friend") = Ok st' →
  getUserName answer p = (Ok (or_else answer "Friend"), set_localStorage st' p)
  ∧ ∀ answer',
      getUserName answer' (set_localStorage st' p)
      = (Ok (or_else answer "Friend"), set_localStorage st' p).
Proof.
  destruct p as [st n0 h w lq inp con reqs n]. cbn [localStorage].
  intros Hget Hset. split.
  - unfold getUserName. run. rewrite Hget. run. rewrite Hset. reflexivity.
  - intros answer'. unfold getUserName. run.
    rewrite (getItem_setItem _ _ _ _ Hset). run.
    pose proof (or_else_nonempty answer "Friend") as Hne.
    destruct (String.eqb (or_else answer "Friend") "") eqn:Heq; [| reflexivity].
    apply String.eqb_eq in Heq. exfalso. apply Hne; [discriminate | assumption].
Qed.

(** X6. The write of the name is not guarded: when no name is stored and
    the write throws, the initialisation throws with it on the page it
    found (nothing is rendered, no history is loaded), and the script
    stops before the submit handler is registered. *)
Theorem init_stops_when_name_cannot_be_stored
    (answer : option string) (p : Page) (e : exn) :
  getItem (localStorage p) NAME_KEY = Ok None →
  setItem (localStorage p) NAME_KEY (or_else answer "Friend") = Throw e →
  init answer p = (Throw e, p).
Proof.
  destruct p as [st n0 h w lq inp con reqs n]. cbn [localStorage].
  intros Hget Hset. apply init_throws.
  unfold getUserName. run. rewrite Hget. run. rewrite Hset. reflexivity.
Qed.

(** ** Rendering a saved conversation *)

Lemma render_saved_exact (m : value) (p : Page) :
  renderable_entry m = true →
  render_saved m p
  = (Ok tt, mkPage (localStorage p) (userName p) (history p)
                   (chatWindow p ++ [saved_bubble (next_id p) m])
                   (latestQuestionEl p) (userInput_value p) (console p)
                   (requests p) (S (next_id p))).
Proof.
  destruct p as [st name h w lq inp con reqs n].
  unfold render_saved, saved_bubble, renderable_entry, prop_or_undefined.
  destruct m; cbn [nullish negb andb]; intros Hm; try discriminate; cbn [get_prop] in *;
    run; try reflexivity.
  rewrite Hm. reflexivity.
Qed.

Lemma render_saved_stops (m : value) (p : Page) :
  renderable_entry m = false →
  render_saved m p
  = (Throw TypeError, set_next_id (next_id p + created_before_throw m) p).
Proof.
  destruct p as [st name h w lq inp con reqs n].
  unfold render_saved, renderable_entry, created_before_throw, prop_or_undefined.
  destruct m; cbn [nullish negb andb]; intros Hm; cbn [get_prop] in *;
    try discriminate; run; rewrite ?Nat.add_0_r; try reflexivity.
  rewrite Hm, Nat.add_1_r. reflexivity.
Qed.

Lemma for_each_render_all (h : list value) :
  ∀ p, renderable h →
    for_each render_saved h p
    = (Ok tt, mkPage (localStorage p) (userName p) (history p)
                     (chatWindow p ++ render_all (next_id p) h)
                     (latestQuestionEl p) (userInput_value p) (console p)
                     (requests p) (next_id p + length h)).
Proof.
  induction h as [| m h IH]; intros p Hh.
  - destruct p. cbn. rewrite app_nil_r, Nat.add_0_r. reflexivity.
  - apply Forall_cons in Hh as [Hm Hh].
    cbn [for_each]. cbv beta delta [mbind M_bind].
    rewrite render_saved_exact by assumption.
    rewrite IH by assumption. cbn. rewrite <- app_assoc, Nat.add_succ_r. reflexivity.
Qed.

Lemma for_each_render_stops (pre post : list value) (m : value) :
  ∀ p, renderable pre → renderable_entry m = false →
    for_each render_saved (pre ++ m :: post) p
    = (Throw TypeError,
       mkPage (localStorage p) (userName p) (history p)
              (chatWindow p ++ render_all (next_id p) pre)
              (latestQuestionEl p) (userInput_value p) (console p)
              (requests p) (next_id p + length pre + created_before_throw m)).
Proof.
  induction pre as [| x pre IH]; intros p Hpre Hm.
  - cbn [app for_each]. cbv beta delta [mbind M_bind].
    rewrite render_saved_stops by assumption.
    destruct p. cbn. rewrite app_nil_r, Nat.add_0_r. reflexivity.
  - apply Forall_cons in Hpre as [Hx Hpre].
    cbn [app for_each]. cbv beta delta [mbind M_bind].
    rewrite render_saved_exact by assumption.
    rewrite IH by assumption. cbn. rewrite <- app_assoc, Nat.add_succ_r. reflexivity.
Qed.

Lemma load_stored (p : Page) (h : list value) :
  load p = (Ok h, p) → stored_history (localStorage p) = h.
Proof. rewrite load_run. intros [= ->]. reflexivity. Qed.

(** X7. When the stored history is not empty and every entry of it can be
    shown (none is [null] or [undefined], and no content is an object, or
    an array holding one, that hides [toString]), the initialisation
    renders one bubble per entry, in order and after what the transcript
    held, as a user bubble when the role is "user" and as an assistant
    bubble otherwise; the history is the stored one and the storage is not
    written. *)
Theorem init_renders_saved_history
    (answer : option string) (p0 p1 : Page) (name : string) (h : list value) :
  getUserName answer p0 = (Ok name, p1) →
  load p1 = (Ok h, p1) →
  h ≠ [] →
  renderable h →
  ∃ p',
    init answer p0 = (Ok tt, p')
    ∧ chatWindow p' = chatWindow p0 ++ render_all (next_id p0) h
    ∧ history p' = h
    ∧ userName p' = name
    ∧ localStorage p' = localStorage p1.
Proof.
  intros Hname Hload Hne Hsend. apply load_stored in Hload.
  destruct (getUserName_fields _ _ _ _ Hname) as (Hwin & Hnext & _).
  rewrite (init_saved _ _ _ _ Hname) by (rewrite Hload; assumption).
  rewrite Hload, for_each_render_all by assumption.
  eexists. split; [reflexivity |].
  destruct p1; cbn in *. subst. repeat split; reflexivity.
Qed.

(** X8. The first stored entry that cannot be shown, because it is [null]
    or [undefined] or because its content has no text, stops the
    initialisation with a [TypeError] at that entry: the entries before it
    are rendered, that entry and the rest are not, and the script ends
    there. *)
Theorem init_stops_at_first_unrenderable_entry
    (answer : option string) (p0 p1 : Page) (name : string)
    (pre post : list value) (m : value) :
  getUserName answer p0 = (Ok name, p1) →
  load p1 = (Ok (pre ++ m :: post), p1) →
  renderable pre →
  renderable_entry m = false →
  ∃ p',
    init answer p0 = (Throw TypeError, p')
    ∧ chatWindow p' = chatWindow p0 ++ render_all (next_id p0) pre
    ∧ history p' = pre ++ m :: post.
Proof.
  intros Hname Hload Hpre Hm. apply load_stored in Hload.
  destruct (getUserName_fields _ _ _ _ Hname) as (Hwin & Hnext & _).
  rewrite (init_saved _ _ _ _ Hname)
    by (rewrite Hload; destruct pre; discriminate).
  rewrite Hload, for_each_render_stops by assumption.
  eexists. split; [reflexivity |].
  destruct p1; cbn in *. subst. split; reflexivity.
Qed.

(** ** What is sent *)

Lemma prop_or_undefined_ok (m : value) (k : string) :
  nullish m = false → get_prop m k = Ok (prop_or_undefined m k).
Proof. unfold prop_or_undefined. destruct m; cbn; intros; try discriminate; reflexivity. Qed.

Lemma project_message_sent_form (m : value) :
  project_message m = if nullish m then Throw TypeError else Ok (sent_form m).
Proof.
  destruct (nullish m) eqn:Hm.
  - destruct m; try discriminate; reflexivity.
  - unfold project_message, sent_form.
    rewrite !(prop_or_undefined_ok m) by assumption. reflexivity.
Qed.

Lemma mapM_project_sent_form (h : list value) :
  mapM project_message h
  = if forallb (fun m => negb (nullish m)) h then Ok (map sent_form h)
    else Throw TypeError.
Proof.
  induction h as [| m h IH]; [reflexivity |].
  cbn [mapM forallb map]. rewrite project_message_sent_form.
  destruct (nullish m); [reflexivity |]. cbn. rewrite IH.
  destruct (forallb _ h); reflexivity.
Qed.


(** X9. What [messagesToSend] builds, on every history: when no entry is
    [null] or [undefined], the system message followed by the role and the
    content of each entry, in order and with nothing else of the entry;
    otherwise a [TypeError].  An entry the script stored itself is sent as
    it is. *)
Theorem messagesToSend_sends_role_and_content (name : string) (h : list value) :
  messagesToSend name h
  = (if forallb (fun m => negb (nullish m)) h
     then Ok (text_message "system" (systemPromptFor name) :: map sent_form h)
     else Throw TypeError)
  ∧ (∀ r c : string, sent_form (text_message r c) = text_message r c)
  ∧ (∀ m, nullish m = false →
       get_prop (sent_form m) "role" = get_prop m "role"
       ∧ get_prop (sent_form m) "content" = get_prop m "content").
Proof.
  split.
  - unfold messagesToSend. rewrite mapM_project_sent_form.
    destruct (forallb _ h); reflexivity.
  - split; [reflexivity |].
    intros m Hm. rewrite !(prop_or_undefined_ok m) by assumption. split; reflexivity.
Qed.

(** ** The handler on every page *)

Lemma submit_resume_keeps (el : Element) (net : fetch_result) (p : Page) :
  latestQuestionEl (submit_resume el net p).2 = latestQuestionEl p
  ∧ userInput_value (submit_resume el net p).2 = userInput_value p.
Proof.
  unfold submit_resume, on_settled, on_error, resp_json, resp_text.
  destruct p as [st name h w lq inp con reqs n].
  destruct net as [e | resp]; run; [split; reflexivity |].
  destruct (resp_ok resp); cbn [negb]; run.
  - destruct (resp_body resp) as [body | e]; run; [| split; reflexivity].
    destruct (JSON_parse body) as [data | e]; run; [| split; reflexivity].
    destruct (extract_reply data) as [reply | e] eqn:Hreply; run; [| split; reflexivity].
    destruct (truthy reply); run; [| split; reflexivity].
    rewrite (extract_reply_has_text _ _ Hreply). run.
    rewrite append_history_run. unfold after_save. run.
    destruct (setItem _ _ _); split; reflexivity.
  - destruct (resp_body resp) as [body | e]; run; split; reflexivity.
Qed.

Lemma submit_keeps_banner (net : fetch_result) (p : Page) :
  trim (userInput_value p) ≠ "" →
  latestQuestionEl (submit net p).2 = question_banner (trim (userInput_value p))
  ∧ userInput_value (submit net p).2 = "".
Proof.
  intros Hne. rewrite submit_unfold, submit_begin_run by assumption.
  destruct (messagesToSend _ _) as [msgs | e]; [| split; reflexivity].
  destruct (submit_resume_keeps (typing_indicator (S (next_id p))) net
              (set_requests (requests p ++ [worker_request msgs]) (begun p)))
    as [-> ->].
  split; reflexivity.
Qed.

(** X10. After a submission with a non-empty input, however the request
    ends, the question banner shows the trimmed question with its markup
    escaped, and the input field is empty. *)
Theorem submission_shows_escaped_question (net : fetch_result) (p : Page) :
  trim (userInput_value p) ≠ "" →
  latestQuestionEl (submit net p).2
  = mkBanner ("<strong>Your question</strong>: "
                ++ escapeHtml (trim (userInput_value p)))
             "block" "false"
  ∧ userInput_value (submit net p).2 = "".
Proof. exact (submit_keeps_banner net p). Qed.

(** X11. Submitting twice without typing in between sends one question:
    the first submission clears the input, so the second one changes
    nothing (the host's [trim] maps the empty string to itself). *)
Theorem second_submit_is_noop (net1 net2 : fetch_result) (p : Page) :
  trim "" = "" →
  trim (userInput_value p) ≠ "" →
  submit net2 (submit net1 p).2 = (Ok tt, (submit net1 p).2).
Proof.
  intros Htrim Hne. rewrite (submit_unfold net2).
  rewrite submit_begin_empty; [reflexivity |].
  destruct (submit_keeps_banner net1 p Hne) as [_ ->]. exact Htrim.
Qed.

(** X12. The handler never rejects on a page it can run on: every
    submission returns, whatever the input and whatever the request ends
    with, and it leaves a page the handler can run on again. *)
Theorem submit_never_rejects (net : fetch_result) (p : Page) :
  reachable p →
  (submit net p).1 = Ok tt ∧ reachable (submit net p).2.
Proof.
  intros Hreach. split; [| apply reachable_submit; assumption].
  destruct (decide (trim (userInput_value p) = "")) as [Hempty | Hne].
  - rewrite submit_unfold, submit_begin_empty by assumption. reflexivity.
  - destruct (reachable_invariant p Hreach) as [Hfresh Hsend].
    destruct (submit_run net p Hfresh Hsend Hne) as (msgs & p' & _ & -> & _).
    reflexivity.
Qed.


(** X14. A usable reply: the exchange closes with the reply, trimmed, as
    an assistant bubble, and the history gains the user's entry and then
    the assistant's entry with that text. *)
Theorem reply_is_rendered_and_appended (p : Page) (resp : Response) (s : string) :
  reachable p →
  trim (userInput_value p) ≠ "" →
  resp_ok resp = true →
  reply_of resp = Ok (VStr s) →
  s ≠ "" →
  ∃ p',
    submit (FetchResolved resp) p = (Ok tt, p')
    ∧ chatWindow p'
      = chatWindow p
          ++ [bubble (next_id p) "user" (trim (userInput_value p));
              bubble (S (S (next_id p))) "ai" s]
    ∧ history p'
      = push_bounded (push_bounded (history p) (user_entry p))
                     (text_message "assistant" s)
    ∧ ∃ c : string, s = trim c.
Proof.
  intros Hreach Hne Hok Hreply Hs.
  destruct (reachable_invariant p Hreach) as [Hfresh Hsend].
  destruct (submit_run (FetchResolved resp) p Hfresh Hsend Hne)
    as (msgs & p' & _ & Hrun & Hwin & Hhist & _).
  assert (settle (FetchResolved resp) = Replied (VStr s)) as Hsettle.
  { unfold settle. rewrite Hok, Hreply. cbn.
    apply String.eqb_neq in Hs. rewrite Hs. reflexivity. }
  rewrite Hsettle in Hwin, Hhist.
  exists p'. split; [exact Hrun |]. split; [exact Hwin |]. split; [exact Hhist |].
  destruct (reply_of_shape _ _ Hreply) as [Hundef | [c Hc]]; [discriminate |].
  exists c. congruence.
Qed.

Lemma submit_resume_rejected (el : Element) (e : exn) (p : Page) :
  submit_resume el (FetchRejected e) p
  = (Ok tt,
     mkPage (localStorage p) (userName p) (history p)
            (filter (fun x => el_id x ≠ el_id el) (chatWindow p)
               ++ [bubble (next_id p) "ai" NETWORK_ERROR_NOTICE])
            (latestQuestionEl p) (userInput_value p)
            (console p ++ [ErrorCaught e]) (requests p) (S (next_id p))).
Proof.
  destruct p as [st name h w lq inp con reqs n].
  unfold submit_resume, on_settled, on_error. run. reflexivity.
Qed.

(** X15. A request that never completes: the typing indicator is removed,
    the exchange closes with the "network error" notice, the error is
    logged, the history has gained the user's entry only, and exactly one
    request was issued, with no retry. *)
Theorem rejected_fetch_shows_network_error (p : Page) (e : exn) :
  reachable p →
  trim (userInput_value p) ≠ "" →
  ∃ p' msgs,
    submit (FetchRejected e) p = (Ok tt, p')
    ∧ chatWindow p'
      = chatWindow p
          ++ [bubble (next_id p) "user" (trim (userInput_value p));
              bubble (S (S (next_id p))) "ai" NETWORK_ERROR_NOTICE]
    ∧ history p' = push_bounded (history p) (user_entry p)
    ∧ requests p' = requests p ++ [worker_request msgs]
    ∧ last (console p') = Some (ErrorCaught e).
Proof.
  intros Hreach Hne.
  destruct (reachable_invariant p Hreach) as [Hfresh Hsend].
  destruct (submit_run (FetchRejected e) p Hfresh Hsend Hne)
    as (msgs & p' & Hmsgs & Hrun & Hwin & Hhist & Hreq & _).
  exists p', msgs. split; [exact Hrun |]. split; [exact Hwin |].
  split; [exact Hhist |]. split; [exact Hreq |].
  rewrite submit_unfold, submit_begin_run, Hmsgs, submit_resume_rejected in Hrun
    by assumption.
  injection Hrun as <-. cbn [console]. apply last_snoc.
Qed.

Lemma push_bounded_le (h : list value) (m : value) :
  length (push_bounded h m) <= MAX_HISTORY_MESSAGES.
Proof. rewrite push_bounded_length. lia. Qed.

(** X16. The bound is an invariant of the handler: after a submission with
    a non-empty input the history has at most [MAX_HISTORY_MESSAGES]
    entries whatever its length was before, and a history within the bound
    stays within it after every submission. *)
Theorem submit_keeps_history_bound (net : fetch_result) (p : Page) :
  (trim (userInput_value p) ≠ "" →
   length (history (submit net p).2) <= MAX_HISTORY_MESSAGES)
  ∧ (length (history p) <= MAX_HISTORY_MESSAGES →
     length (history (submit net p).2) <= MAX_HISTORY_MESSAGES).
Proof.
  assert (∀ s h, length h <= MAX_HISTORY_MESSAGES →
                 length (closing_history s h) <= MAX_HISTORY_MESSAGES) as Hclose.
  { intros s h Hh. destruct s; cbn; try assumption. apply push_bounded_le. }
  split.
  - intros Hne. rewrite submit_unfold, submit_begin_run by assumption.
    destruct (messagesToSend _ _) as [msgs | e]; [| apply push_bounded_le].
    destruct (submit_resume_run (typing_indicator (S (next_id p))) net
                (set_requests (requests p ++ [worker_request msgs]) (begun p)))
      as (p' & -> & _ & Hhist & _).
    cbn [snd]. rewrite Hhist. apply Hclose. apply push_bounded_le.
  - intros Hle. destruct (submit_history net p) as [-> | [-> | ->]].
    + assumption.
    + apply push_bounded_le.
    + apply Hclose, push_bounded_le.
Qed.

(** ** Text stays text *)

Lemma saved_bubble_plain (n : nat) (m : value) : plain_or_typing (saved_bubble n m).
Proof. exact I. Qed.

Lemma render_all_plain (h : list value) :
  ∀ n, Forall plain_or_typing (render_all n h).
Proof. induction h as [| m h IH]; intros n; constructor; [exact I | apply IH]. Qed.

Lemma renderable_or_stops (h : list value) :
  renderable h
  ∨ ∃ pre m post,
      h = pre ++ m :: post ∧ renderable pre ∧ renderable_entry m = false.
Proof.
  induction h as [| x h [IH | (pre & m & post & -> & Hpre & Hm)]].
  - left. constructor.
  - destruct (renderable_entry x) eqn:Hx.
    + left. constructor; assumption.
    + right. exists [], x, h. split; [reflexivity |]. split; [constructor | assumption].
  - destruct (renderable_entry x) eqn:Hx.
    + right. exists (x :: pre), m, post.
      split; [reflexivity |]. split; [constructor; assumption | assumption].
    + right. exists [], x, (pre ++ m :: post).
      split; [reflexivity |]. split; [constructor | assumption].
Qed.

Lemma submit_transcript_plain (net : fetch_result) (p : Page) :
  Forall plain_or_typing (chatWindow p) →
  Forall plain_or_typing (chatWindow (submit net p).2).
Proof.
  intros Hplain. rewrite submit_unfold.
  destruct (decide (trim (userInput_value p) = "")) as [Hempty | Hne].
  { rewrite submit_begin_empty by assumption. assumption. }
  rewrite submit_begin_run by assumption.
  assert (Forall plain_or_typing (chatWindow (begun p))) as Hbegun.
  { cbn. apply Forall_app. split; [assumption |]. repeat constructor. }
  destruct (messagesToSend _ _) as [msgs | e]; [| exact Hbegun].
  destruct (submit_resume_run (typing_indicator (S (next_id p))) net
              (set_requests (requests p ++ [worker_request msgs]) (begun p)))
    as (p' & -> & Hwin & _).
  cbn [snd]. rewrite Hwin. apply Forall_app. split; [| repeat constructor].
  apply Forall_forall. intros x Hx. apply list_elem_of_filter in Hx as [_ Hx].
  rewrite Forall_forall in Hbegun. apply Hbegun. exact Hx.
Qed.

Lemma init_transcript_plain (answer : option string) (p : Page) :
  Forall plain_or_typing (chatWindow p) →
  Forall plain_or_typing (chatWindow (init answer p).2).
Proof.
  intros Hplain.
  destruct (getUserName answer p) as [[name | e] p1] eqn:Hname.
  2: { rewrite (init_throws _ _ _ _ Hname). cbn [snd].
       destruct (getUserName_fields _ _ _ _ Hname) as (-> & _). assumption. }
  destruct (getUserName_fields _ _ _ _ Hname) as (Hwin & Hnext & _).
  destruct (stored_history (localStorage p1)) as [| m h] eqn:Hstored.
  - rewrite (init_welcome _ _ _ _ Hname Hstored). cbn [snd].
    unfold welcomed. cbv zeta.
    match goal with |- context [after_save ?h ?q] =>
      destruct (after_save_fields h q) as (_ & -> & _)
    end.
    cbn. rewrite Hwin. apply Forall_app. split; [assumption | repeat constructor].
  - rewrite (init_saved _ _ _ _ Hname) by (rewrite Hstored; discriminate).
    rewrite Hstored.
    destruct (renderable_or_stops (m :: h)) as [Hsend | (pre & x & post & Heq & Hpre & Hx)].
    + rewrite for_each_render_all by assumption. cbn [snd chatWindow].
      destruct p1 as [st1 n1 h1 w1 lq1 inp1 con1 reqs1 nx1].
      cbn [chatWindow set_history set_userName next_id] in *. subst.
      apply Forall_app. split; [assumption | apply render_all_plain].
    + rewrite Heq, for_each_render_stops by assumption. cbn [snd chatWindow].
      destruct p1 as [st1 n1 h1 w1 lq1 inp1 con1 reqs1 nx1].
      cbn [chatWindow set_history set_userName next_id] in *. subst.
      apply Forall_app. split; [assumption | apply render_all_plain].
Qed.

(** X17. The script puts text into the transcript through [textContent]
    only: if every element of the transcript is a text bubble or carries
    the fixed markup of the typing indicator, the same holds after the
    initialisation and after every submission, whatever the stored
    history, the input and the reply contain. *)
Theorem transcript_text_is_never_markup
    (net : fetch_result) (answer : option string) (p : Page) :
  Forall plain_or_typing (chatWindow p) →
  Forall plain_or_typing (chatWindow (submit net p).2)
  ∧ Forall plain_or_typing (chatWindow (init answer p).2).
Proof.
  intros Hplain. split;
    [apply submit_transcript_plain | apply init_transcript_plain]; assumption.
Qed.

(** ** Reading the reply *)

Lemma get_prop_ok_not_nullish (v u : value) (k : string) :
  get_prop v k = Ok u → nullish v = false.
Proof. destruct v; cbn; intros; try discriminate; reflexivity. Qed.

(** X18. From a response of the expected shape, an object whose [choices]
    is an array that starts with an object whose [message] holds a string
    [content], the reply is that string, trimmed; further choices and
    further properties are ignored. *)
Theorem extract_reply_reads_first_choice
    (data first msg : value) (others : list value) (s : string) :
  get_prop data "choices" = Ok (VArr (first :: others)) →
  get_prop first "message" = Ok msg →
  get_prop msg "content" = Ok (VStr s) →
  extract_reply data = Ok (VStr (trim s)).
Proof.
  intros Hchoices Hmessage Hcontent.
  pose proof (get_prop_ok_not_nullish _ _ _ Hchoices) as Hdata.
  pose proof (get_prop_ok_not_nullish _ _ _ Hmessage) as Hfirst.
  pose proof (get_prop_ok_not_nullish _ _ _ Hcontent) as Hmsg.
  unfold extract_reply, opt_chain.
  rewrite Hdata, Hchoices. cbn. rewrite Hfirst, Hmessage. cbn.
  rewrite Hmsg, Hcontent. reflexivity.
Qed.

(** X19. On every parsed body the extraction either returns [undefined]
    or a trimmed string, or throws a [TypeError]; it returns [undefined]
    when the body is [null], when it has no [choices], and when [choices]
    is an empty array. *)
Theorem extract_reply_outcomes (data : value) :
  (∀ reply, extract_reply data = Ok reply →
     reply = VUndef ∨ ∃ c : string, reply = VStr (trim c))
  ∧ (∀ e, extract_reply data = Throw e → e = TypeError)
  ∧ (nullish data = true → extract_reply data = Ok VUndef)
  ∧ (get_prop data "choices" = Ok VUndef → extract_reply data = Ok VUndef)
  ∧ (get_prop data "choices" = Ok (VArr []) → extract_reply data = Ok VUndef).
Proof.
  split; [intros reply; apply extract_reply_shape |]. split.
  { unfold extract_reply, opt_chain. intros e H.
    destruct (nullish data) eqn:E0; [discriminate |].
    destruct (get_prop_ok data "choices" E0) as [cs Hcs]. rewrite Hcs in H. cbn in H.
    destruct (nullish cs) eqn:E1; [discriminate |].
    destruct (index0_ok cs E1) as [f Hf]. rewrite Hf in H. cbn in H.
    destruct (nullish f) eqn:E2; [discriminate |].
    destruct (get_prop_ok f "message" E2) as [m Hm]. rewrite Hm in H. cbn in H.
    destruct (nullish m) eqn:E3; [discriminate |].
    destruct (get_prop_ok m "content" E3) as [c Hc]. rewrite Hc in H. cbn in H.
    destruct (nullish c) eqn:E4; [discriminate |].
    destruct c; cbn in H; congruence. }
  split.
  { intros Hnull. unfold extract_reply, opt_chain. rewrite Hnull. reflexivity. }
  split.
  - intros Hchoices. pose proof (get_prop_ok_not_nullish _ _ _ Hchoices) as Hdata.
    unfold extract_reply, opt_chain. rewrite Hdata, Hchoices. reflexivity.
  - intros Hchoices. pose proof (get_prop_ok_not_nullish _ _ _ Hchoices) as Hdata.
    unfold extract_reply, opt_chain. rewrite Hdata, Hchoices. reflexivity.
Qed.

(** ** Requests *)

(** X21. Every submission with a non-empty input issues exactly one
    request, whatever the request ends with (nothing is retried): a POST
    of JSON to the worker, with [max_tokens] 600 and [temperature] 0.2,
    whose first message is the system prompt for the user's name and
    which carries one message per history entry after it. *)
Theorem one_request_per_submission (net : fetch_result) (p : Page) :
  reachable p →
  trim (userInput_value p) ≠ "" →
  ∃ rest,
    requests (submit net p).2
    = requests p
        ++ [mkRequest WORKER_URL "POST" "application/json"
              (text_message "system" (systemPromptFor (userName p)) :: rest)
              600 (2 # 10)]
    ∧ length rest = length (push_bounded (history p) (user_entry p)).
Proof.
  intros Hreach Hne.
  destruct (reachable_invariant p Hreach) as [Hfresh Hsend].
  destruct (submit_run net p Hfresh Hsend Hne)
    as (msgs & p' & Hmsgs & -> & _ & _ & Hreq & _).
  cbn [snd]. rewrite Hreq.
  unfold messagesToSend in Hmsgs. rewrite mapM_project_sent_form in Hmsgs.
  destruct (forallb _ _); [| discriminate].
  injection Hmsgs as <-. eexists. split; [reflexivity |].
  apply length_map.
Qed.

(** ** Two submissions in flight *)

Lemma filter_typing (w : list Element) (n k : nat) (tail : list Element) :
  Forall (fun x => el_id x < n) w →
  n <= k →
  filter (fun x => el_id x ≠ k) (w ++ tail)
  = w ++ filter (fun x => el_id x ≠ k) tail.
Proof.
  intros Hw Hle. rewrite filter_app. f_equal.
  apply filter_fresh. eapply Forall_impl; [exact Hw | cbn; intros; lia].
Qed.

(** X22. When a second question is submitted before the first request has
    settled and both replies arrive in the order of the requests, the
    history holds the two questions and then the two replies, in the order
    the appends were made, and the transcript holds the same four bubbles
    with both typing indicators removed. *)
Theorem overlapping_submissions_keep_order
    (p : Page) (text2 : string) (respA respB : Response) (a b : string) :
  reachable p →
  trim (userInput_value p) ≠ "" → trim text2 ≠ "" →
  resp_ok respA = true → reply_of respA = Ok (VStr a) → a ≠ "" →
  resp_ok respB = true → reply_of respB = Ok (VStr b) → b ≠ "" →
  let n := next_id p in
  let typingA := typing_indicator (S n) in
  let typingB := typing_indicator (S (S (S n))) in
  let pA := (submit_begin p).2 in
  let pB := (submit_begin (set_userInput_value text2 pA)).2 in
  let pA' := (submit_resume typingA (FetchResolved respA) pB).2 in
  let pB' := (submit_resume typingB (FetchResolved respB) pA').2 in
  (submit_begin p).1 = Ok (Some typingA)
  ∧ (submit_begin (set_userInput_value text2 pA)).1 = Ok (Some typingB)
  ∧ history pB'
    = push_bounded
        (push_bounded
           (push_bounded (push_bounded (history p) (user_entry p))
                         (text_message "user" (trim text2)))
           (text_message "assistant" a))
        (text_message "assistant" b)
  ∧ chatWindow pB'
    = chatWindow p
        ++ [bubble n "user" (trim (userInput_value p));
            bubble (S (S n)) "user" (trim text2);
            bubble (S (S (S (S n)))) "ai" a;
            bubble (S (S (S (S (S n))))) "ai" b].
Proof.
  intros Hreach HneA HneB HokA HreplyA Ha HokB HreplyB Hb.
  cbv zeta.
  destruct (reachable_invariant p Hreach) as [Hfresh Hsend].
  assert (∀ resp s, resp_ok resp = true → reply_of resp = Ok (VStr s) → s ≠ "" →
                    settle (FetchResolved resp) = Replied (VStr s)) as Hsettle.
  { intros resp s Hok Hreply Hs. unfold settle. rewrite Hok, Hreply. cbn.
    apply String.eqb_neq in Hs. rewrite Hs. reflexivity. }
  (* the first submission begins *)
  destruct (messagesToSend_ok (userName p) (push_bounded (history p) (user_entry p)))
    as [msgsA HmsgsA].
  { apply push_bounded_Forall; [assumption | reflexivity]. }
  pose proof (submit_begin_run p HneA) as HbeginA. rewrite HmsgsA in HbeginA.
  rewrite HbeginA. cbn [fst snd].
  set (pA := set_requests (requests p ++ [worker_request msgsA]) (begun p)).
  (* the second question is typed and submitted *)
  set (p2 := set_userInput_value text2 pA).
  assert (trim (userInput_value p2) ≠ "") as Hne2 by exact HneB.
  destruct (messagesToSend_ok (userName p2) (push_bounded (history p2) (user_entry p2)))
    as [msgsB HmsgsB].
  { apply push_bounded_Forall; [| reflexivity]. cbn.
    apply push_bounded_Forall; [assumption | reflexivity]. }
  pose proof (submit_begin_run p2 Hne2) as HbeginB. rewrite HmsgsB in HbeginB.
  rewrite HbeginB. cbn [fst snd].
  set (pB := set_requests (requests p2 ++ [worker_request msgsB]) (begun p2)).
  (* the two requests settle *)
  destruct (submit_resume_run (typing_indicator (S (next_id p))) (FetchResolved respA) pB)
    as (p3 & Hrun3 & Hwin3 & Hhist3 & Hnext3 & _).
  rewrite Hrun3. cbn [snd].
  destruct (submit_resume_run (typing_indicator (S (S (S (next_id p)))))
              (FetchResolved respB) p3)
    as (p4 & Hrun4 & Hwin4 & Hhist4 & Hnext4 & _).
  rewrite Hrun4. cbn [snd].
  rewrite (Hsettle _ _ HokA HreplyA Ha) in Hwin3, Hhist3.
  rewrite (Hsettle _ _ HokB HreplyB Hb) in Hwin4, Hhist4.
  split; [reflexivity |]. split; [reflexivity |]. split.
  - rewrite Hhist4, Hhist3. reflexivity.
  - assert (chatWindow pB
            = chatWindow p
                ++ [bubble (next_id p) "user" (trim (userInput_value p));
                    typing_indicator (S (next_id p));
                    bubble (S (S (next_id p))) "user" (trim text2);
                    typing_indicator (S (S (S (next_id p))))]) as HwinB.
    { cbn. rewrite <- app_assoc. reflexivity. }
    assert (next_id pB = S (S (S (S (next_id p))))) as HnextB by reflexivity.
    rewrite HwinB, HnextB in Hwin3. rewrite HnextB in Hnext3.
    rewrite (filter_typing _ (next_id p)) in Hwin3 by (assumption || cbn; lia).
    rewrite filter_cons_True in Hwin3 by (cbn; lia).
    rewrite filter_cons_False in Hwin3 by (cbn; lia).
    rewrite filter_cons_True in Hwin3 by (cbn; lia).
    rewrite filter_cons_True in Hwin3 by (cbn; lia).
    rewrite filter_nil, <- app_assoc in Hwin3. cbn [app] in Hwin3.
    rewrite Hwin3, Hnext3 in Hwin4.
    rewrite (filter_typing _ (next_id p)) in Hwin4 by (assumption || cbn; lia).
    rewrite filter_cons_True in Hwin4 by (cbn; lia).
    rewrite filter_cons_True in Hwin4 by (cbn; lia).
    rewrite filter_cons_False in Hwin4 by (cbn; lia).
    rewrite filter_cons_True in Hwin4 by (cbn; lia).
    rewrite filter_nil, <- app_assoc in Hwin4. cbn [app] in Hwin4.
    rewrite Hwin4. reflexivity.
Qed.

End Further.

(** ** One append *)

(** X20. One append keeps the order, puts the new entry last and drops
    from the front exactly what exceeds the bound: nothing below the
    bound, the oldest entry at the bound. *)
Theorem push_bounded_drops_oldest (h : list value) (m : value) :
  push_bounded h m = drop (S (length h) - MAX_HISTORY_MESSAGES) h ++ [m]
  ∧ (length h < MAX_HISTORY_MESSAGES → push_bounded h m = h ++ [m])
  ∧ (length h = MAX_HISTORY_MESSAGES → push_bounded h m = drop 1 h ++ [m]).
Proof.
  assert (push_bounded h m = drop (S (length h) - MAX_HISTORY_MESSAGES) h ++ [m]) as Hgen.
  { rewrite push_bounded_slice. unfold slice_last.
    rewrite length_app, Nat.add_1_r. apply drop_app_le.
    unfold MAX_HISTORY_MESSAGES. lia. }
  split; [exact Hgen |]. split.
  - intros Hlt. rewrite Hgen.
    replace (S (length h) - MAX_HISTORY_MESSAGES) with 0 by lia. reflexivity.
  - intros Heq. rewrite Hgen, Heq.
    replace (S MAX_HISTORY_MESSAGES - MAX_HISTORY_MESSAGES) with 1
      by (unfold MAX_HISTORY_MESSAGES; lia).
    reflexivity.
Qed.

(** ** The properties at concrete inputs, on the reference host *)

Module Examples.
Import Reference ReferenceFacts Demo.

Lemma booted_run : init (Some "Ada") (blank empty_storage) = (Ok tt, booted).
Proof.
  apply (run_eq (init (Some "Ada")) (blank empty_storage) (Ok tt)).
  vm_compute. reflexivity.
Qed.

Lemma asking_reachable : reachable asking.
Proof.
  apply reach_input.
  apply (reach_init (blank empty_storage) (Some "Ada")); [constructor | exact booted_run].
Qed.

Lemma asking_nonempty : trim (userInput_value asking) ≠ "".
Proof. vm_compute. discriminate. Qed.

Lemma booted_history : history booted = [text_message "assistant" (welcomeFor "Ada")].
Proof. vm_compute. reflexivity. Qed.

(** C1 at twenty-two appends: the first two entries are gone. *)
Lemma history_keeps_last_appends_witness :
  MAX_HISTORY_MESSAGES < length entries
  ∧ history (for_each append_history entries booted).2 = drop 2 entries.
Proof.
  assert (MAX_HISTORY_MESSAGES < length entries) as Hlong by (cbv; lia).
  split; [exact Hlong |].
  exact (proj1 (history_keeps_last_appends booted entries Hlong)).
Defined.

(** C2 at a storage whose history key holds the text "42". *)
Lemma load_recovers_witness :
  no_stored_history number_stored
  ∧ load (blank number_stored) = (Ok [], blank number_stored).
Proof.
  assert (no_stored_history (localStorage (blank number_stored))) as Hbad.
  { apply (history_not_array _ "42" (VNum 42)); vm_compute; reflexivity. }
  split; [exact Hbad |].
  exact (proj1 (proj2 (load_recovers (blank number_stored))) Hbad).
Defined.

(** The function [loadHistory] alone hands that number to its caller; the
    guard of line 95 is what turns it into the empty history. *)
Example loadHistory_number : (loadHistory (blank number_stored)).1 = Ok (VNum 42).
Proof. vm_compute. reflexivity. Qed.

(** C5 at an input of three spaces. *)
Lemma empty_input_is_noop_witness :
  trim (userInput_value (set_userInput_value "   " booted)) = ""
  ∧ submit (FetchRejected NetworkError) (set_userInput_value "   " booted)
    = (Ok tt, set_userInput_value "   " booted).
Proof.
  assert (trim (userInput_value (set_userInput_value "   " booted)) = "") as Hempty
    by (vm_compute; reflexivity).
  split; [exact Hempty |].
  exact (proj1 (empty_input_is_noop (FetchRejected NetworkError)
                  (set_userInput_value "   " booted) Hempty)).
Defined.

(** C7 at the page after the welcome, appending a user message. *)
Lemma append_then_load_witness :
  ∃ p' h,
    append_history hello booted = (Ok tt, p')
    ∧ load p' = (Ok h, p')
    ∧ last h = Some hello
    ∧ h = history p'.
Proof.
  apply (append_then_load booted hello hello_saved).
  - rewrite booted_history. repeat constructor. eexists _, _. reflexivity.
  - eexists _, _. reflexivity.
  - vm_compute. reflexivity.
Defined.

(** C4 at the history after the welcome. *)
Lemma outbound_is_system_then_history_witness :
  messagesToSend "Ada" (history booted)
  = Ok (text_message "system" (systemPromptFor "Ada") :: history booted).
Proof.
  assert (Forall is_message (history booted)) as Hmessages.
  { rewrite booted_history. repeat constructor. eexists _, _. reflexivity. }
  exact (proj1 (outbound_is_system_then_history "Ada" (history booted) Hmessages)).
Defined.

(** The system message for "Ada", letter by letter. *)
Example system_message_for_Ada :
  messagesToSend "Ada" []
  = Ok [VObj [("role", VStr "system");
              ("content",
               VStr (("You are the L'Oréal Smart Product Advisor. Only answer user questions about L'Oréal products (makeup, skincare, haircare, fragrances), product details, and personalized routines or recommendations. If a user asks about anything outside L'Oréal products or routines, reply briefly that you can only assist with L'Oréal product-related questions and offer to help within that scope."
                       ++ String (ascii_of_nat 10)
                            "User name: Ada. Use the user's name when appropriate.")%string))]].
Proof. vm_compute. reflexivity. Qed.

(** C3 (amended) at a success response with an empty object. *)
Lemma success_without_reply_witness :
  ∃ p',
    submit (FetchResolved empty_reply) asking = (Ok tt, p')
    ∧ history p' = push_bounded (history asking) (user_entry asking)
    ∧ chatWindow p'
      = chatWindow asking
          ++ [bubble (next_id asking) "user" (trim (userInput_value asking));
              bubble (S (S (next_id asking))) "ai" NO_REPLY_NOTICE].
Proof.
  assert (resp_ok empty_reply = true) as Hok by reflexivity.
  assert (reply_of empty_reply = Ok VUndef) as Hreply by (vm_compute; reflexivity).
  assert (∀ s : string, reply_of empty_reply = Ok (VStr s) → s = "") as Hnone.
  { intros s Hs. rewrite Hreply in Hs. discriminate. }
  destruct (success_without_reply asking empty_reply
              asking_reachable asking_nonempty Hok Hnone)
    as (p' & Hrun & Hhist & Hwin & _).
  rewrite Hreply in Hwin.
  exists p'. split; [exact Hrun |]. split; [exact Hhist | exact Hwin].
Defined.

(** C3 as stated fails when the body of a success response is not JSON:
    the exchange closes with the "network error" notice. *)
Lemma unparseable_reply_shows_network_error :
  resp_ok garbled_reply = true
  ∧ reply_of garbled_reply = Throw SyntaxError
  ∧ chatWindow (submit (FetchResolved garbled_reply) asking).2
    = [bubble 0 "ai" (welcomeFor "Ada");
       bubble 1 "user" "Which serum?";
       bubble 3 "ai" NETWORK_ERROR_NOTICE]
  ∧ String.eqb NETWORK_ERROR_NOTICE NO_REPLY_NOTICE = false.
Proof. repeat split; vm_compute; reflexivity. Qed.

(** A content that is not a string has no [trim]: the call throws and the
    exchange closes with the "network error" notice as well. *)
Example number_content_shows_network_error :
  reply_of number_reply = Throw TypeError
  ∧ chatWindow (submit (FetchResolved number_reply) asking).2
    = [bubble 0 "ai" (welcomeFor "Ada");
       bubble 1 "user" "Which serum?";
       bubble 3 "ai" NETWORK_ERROR_NOTICE].
Proof. repeat split; vm_compute; reflexivity. Qed.

(** A reply is rendered trimmed and the history gains two entries. *)
Example reply_is_rendered_and_stored :
  chatWindow (submit (FetchResolved good_reply) asking).2
  = [bubble 0 "ai" (welcomeFor "Ada");
     bubble 1 "user" "Which serum?";
     bubble 3 "ai" "Try the Revitalift serum."]
  ∧ history (submit (FetchResolved good_reply) asking).2
    = [text_message "assistant" (welcomeFor "Ada");
       text_message "user" "Which serum?";
       text_message "assistant" "Try the Revitalift serum."]
  ∧ (load (submit (FetchResolved good_reply) asking).2).1
    = Ok (history (submit (FetchResolved good_reply) asking).2).
Proof. repeat split; vm_compute; reflexivity. Qed.

(** C6 (amended) at an error response whose body can be read. *)
Lemma error_status_keeps_history_witness :
  ∃ p',
    submit (FetchResolved server_error) asking = (Ok tt, p')
    ∧ history p' = push_bounded (history asking) (user_entry asking)
    ∧ chatWindow p'
      = chatWindow asking
          ++ [bubble (next_id asking) "user" (trim (userInput_value asking));
              bubble (S (S (next_id asking))) "ai" SERVER_ERROR_NOTICE].
Proof.
  assert (resp_ok server_error = false) as Hok by reflexivity.
  destruct (error_status_keeps_history asking server_error
              asking_reachable asking_nonempty Hok)
    as (p' & Hrun & Hhist & _ & Hwin & _).
  exists p'. split; [exact Hrun |]. split; [exact Hhist | exact Hwin].
Defined.

(** C6 as stated fails when the body of the error response cannot be read:
    the exchange closes with the "network error" notice. *)
Lemma unreadable_error_shows_network_error :
  resp_ok broken_error = false
  ∧ chatWindow (submit (FetchResolved broken_error) asking).2
    = [bubble 0 "ai" (welcomeFor "Ada");
       bubble 1 "user" "Which serum?";
       bubble 3 "ai" NETWORK_ERROR_NOTICE]
  ∧ String.eqb NETWORK_ERROR_NOTICE SERVER_ERROR_NOTICE = false.
Proof. repeat split; vm_compute; reflexivity. Qed.

(** C8 at a request that never completes. *)
Lemma typing_indicator_removed_witness :
  ∃ p' closing,
    submit (FetchRejected NetworkError) asking = (Ok tt, p')
    ∧ chatWindow p'
      = chatWindow asking
          ++ [bubble (next_id asking) "user" (trim (userInput_value asking)); closing]
    ∧ Forall (fun el => el_id el ≠ S (next_id asking)) (chatWindow p').
Proof.
  exact (proj1 (proj2 (typing_indicator_removed (FetchRejected NetworkError) asking
                         asking_reachable asking_nonempty))).
Defined.

(** C9 (amended) at the first visit of a user who answers "Ada". *)
Lemma init_welcomes_once_witness :
  ∃ p',
    init (Some "Ada") (blank empty_storage) = (Ok tt, p')
    ∧ chatWindow p' = [bubble 0 "ai" (welcomeFor "Ada")]
    ∧ history p' = [text_message "assistant" (welcomeFor "Ada")]
    ∧ load p' = (Ok [text_message "assistant" (welcomeFor "Ada")], p').
Proof.
  pose (p1 := (getUserName (Some "Ada") (blank empty_storage)).2).
  assert (getUserName (Some "Ada") (blank empty_storage) = (Ok "Ada", p1)) as Hname.
  { apply (run_eq (getUserName (Some "Ada")) (blank empty_storage) (Ok "Ada")).
    vm_compute. reflexivity. }
  assert (load p1 = (Ok [], p1)) as Hload.
  { rewrite load_run.
    assert (stored_history (localStorage p1) = []) as -> by (vm_compute; reflexivity).
    reflexivity. }
  destruct (proj1 (init_welcomes_once (Some "Ada") (blank empty_storage) p1 "Ada" Hname)
              Hload)
    as (p' & Hrun & Hwin & Hhist & _ & Hsaved & _).
  exists p'. split; [exact Hrun |]. split; [exact Hwin |]. split; [exact Hhist |].
  refine (proj2 (Hsaved (localStorage booted) _)).
  vm_compute. reflexivity.
Defined.

(** C9 as stated fails when the write fails: the welcome is rendered and
    appended, and nothing is stored under the history key. *)
Lemma welcome_not_persisted_when_full :
  (init None (blank cramped)).1 = Ok tt
  ∧ history (init None (blank cramped)).2 = [text_message "assistant" (welcomeFor "Ada")]
  ∧ chatWindow (init None (blank cramped)).2 = [bubble 0 "ai" (welcomeFor "Ada")]
  ∧ getItem (localStorage (init None (blank cramped)).2) HISTORY_KEY = Ok None
  ∧ console (init None (blank cramped)).2 = [WarnSaveFailed DOMException].
Proof. repeat split; vm_compute; reflexivity. Qed.

End Examples.

(** ** The further properties at concrete inputs *)

Module FurtherExamples.
Import Reference ReferenceFacts Demo FurtherDemo Examples.

(** X2 at the texts ["<"] and ["&lt;"]: their escaped forms differ. *)
Lemma escapeHtml_injective_witness :
  String.eqb (escapeHtml "<") (escapeHtml "&lt;") = false.
Proof.
  apply String.eqb_neq. intros Heq.
  pose proof (escapeHtml_injective "<" "&lt;" Heq) as Habsurd. discriminate.
Defined.

(** X3 at a storage that knows "Ada", with a prompt that would answer "Bob". *)
Lemma getUserName_uses_stored_name_witness :
  getUserName (Some "Bob") (blank cramped) = (Ok "Ada", blank cramped).
Proof.
  apply (getUserName_uses_stored_name (Some "Bob") (blank cramped) "Ada").
  - vm_compute. reflexivity.
  - discriminate.
Defined.

(** X4 at a first visit where the prompt is left empty. *)
Lemma getUserName_never_empty_witness :
  (getUserName (Some "") (blank empty_storage)).1 = Ok "Friend"
  ∧ String.eqb "Friend" "" = false.
Proof.
  assert ((getUserName (Some "") (blank empty_storage)).1 = Ok "Friend") as Hrun
    by (vm_compute; reflexivity).
  split; [exact Hrun |].
  apply String.eqb_neq.
  exact (proj1 (getUserName_never_empty (Some "") (blank empty_storage) _ "Friend"
                  (run_eq (getUserName (Some "")) (blank empty_storage) _ Hrun))).
Defined.

(** X5 at a first visit answered "Ada", then a call that would answer "Bob". *)
Lemma getUserName_asks_once_witness :
  getUserName (Some "Bob")
    (set_localStorage (localStorage (getUserName (Some "Ada") (blank empty_storage)).2)
                      (blank empty_storage))
  = (Ok "Ada",
     set_localStorage (localStorage (getUserName (Some "Ada") (blank empty_storage)).2)
                      (blank empty_storage)).
Proof.
  refine (proj2 (getUserName_asks_once (Some "Ada") (blank empty_storage)
                   (localStorage (getUserName (Some "Ada") (blank empty_storage)).2)
                   _ _) (Some "Bob")).
  - vm_compute. reflexivity.
  - vm_compute. reflexivity.
Defined.

(** X6 at a storage with no room. *)
Lemma init_stops_when_name_cannot_be_stored_witness :
  init (Some "Ada") (blank full) = (Throw DOMException, blank full).
Proof.
  apply (init_stops_when_name_cannot_be_stored (Some "Ada") (blank full) DOMException).
  - vm_compute. reflexivity.
  - vm_compute. reflexivity.
Defined.

Lemma returning_name :
  getUserName None (blank returning)
  = (Ok "Ada", (getUserName None (blank returning)).2).
Proof.
  apply (run_eq (getUserName None) (blank returning) (Ok "Ada")).
  vm_compute. reflexivity.
Qed.

(** X7 at a returning user's storage. *)
Lemma init_renders_saved_history_witness :
  ∃ p',
    init None (blank returning) = (Ok tt, p')
    ∧ chatWindow p' = [bubble 0 "ai" (welcomeFor "Ada"); bubble 1 "user" "Hello"]
    ∧ history p' = [text_message "assistant" (welcomeFor "Ada"); hello].
Proof.
  pose (p1 := (getUserName None (blank returning)).2).
  assert (load p1 = (Ok [text_message "assistant" (welcomeFor "Ada"); hello], p1))
    as Hload.
  { rewrite load_run.
    assert (stored_history (localStorage p1)
            = [text_message "assistant" (welcomeFor "Ada"); hello]) as ->
      by (vm_compute; reflexivity).
    reflexivity. }
  destruct (init_renders_saved_history None (blank returning) p1 "Ada"
              [text_message "assistant" (welcomeFor "Ada"); hello]
              returning_name Hload)
    as (p' & Hrun & Hwin & Hhist & _).
  - discriminate.
  - repeat constructor.
  - exists p'. split; [exact Hrun |]. split; [| exact Hhist].
    rewrite Hwin. vm_compute. reflexivity.
Defined.

Lemma textless_stored_name :
  getUserName None (blank textless_stored)
  = (Ok "Ada", (getUserName None (blank textless_stored)).2).
Proof.
  apply (run_eq (getUserName None) (blank textless_stored) (Ok "Ada")).
  vm_compute. reflexivity.
Qed.

(** X8 at a saved history of a message, an entry whose content has no
    text, and [null]: the message is rendered, the rest is not. *)
Lemma init_stops_at_first_unrenderable_entry_witness :
  ∃ p',
    init None (blank textless_stored) = (Throw TypeError, p')
    ∧ chatWindow p' = [bubble 0 "user" "Hello"]
    ∧ history p' = [hello; textless; VNull].
Proof.
  pose (p1 := (getUserName None (blank textless_stored)).2).
  assert (load p1 = (Ok ([hello] ++ textless :: [VNull]), p1)) as Hload.
  { rewrite load_run.
    assert (stored_history (localStorage p1) = [hello; textless; VNull]) as ->
      by (vm_compute; reflexivity).
    reflexivity. }
  destruct (init_stops_at_first_unrenderable_entry None (blank textless_stored) p1 "Ada"
              [hello] [VNull] textless textless_stored_name Hload)
    as (p' & Hrun & Hwin & Hhist).
  - repeat constructor.
  - reflexivity.
  - exists p'. split; [exact Hrun |]. split; [| exact Hhist].
    rewrite Hwin. vm_compute. reflexivity.
Defined.

(** When the entry without a text comes first, nothing is rendered. *)
Example textless_first_renders_nothing :
  (init None (blank textless_first_stored)).1 = Throw TypeError
  ∧ chatWindow (init None (blank textless_first_stored)).2 = []
  ∧ history (init None (blank textless_first_stored)).2 = [textless; VNull].
Proof. repeat split; vm_compute; reflexivity. Qed.

(** X10 at the question "  Which serum?  ". *)
Lemma submission_shows_escaped_question_witness :
  userInput_value (submit (FetchRejected NetworkError) asking).2 = "".
Proof.
  exact (proj2 (submission_shows_escaped_question (FetchRejected NetworkError) asking
                  asking_nonempty)).
Defined.

(** X11 at two submissions of one question. *)
Lemma second_submit_is_noop_witness :
  submit (FetchRejected NetworkError) (submit (FetchResolved good_reply) asking).2
  = (Ok tt, (submit (FetchResolved good_reply) asking).2).
Proof.
  apply (second_submit_is_noop (FetchResolved good_reply) (FetchRejected NetworkError)
           asking).
  - reflexivity.
  - exact asking_nonempty.
Defined.

(** X12 at a request that never completes. *)
Lemma submit_never_rejects_witness :
  (submit (FetchRejected NetworkError) asking).1 = Ok tt.
Proof.
  exact (proj1 (submit_never_rejects (FetchRejected NetworkError) asking
                  asking_reachable)).
Defined.


Lemma good_reply_text : reply_of good_reply = Ok (VStr "Try the Revitalift serum.").
Proof. vm_compute. reflexivity. Qed.

(** X14 at a reply with white space around its text. *)
Lemma reply_is_rendered_and_appended_witness :
  ∃ p',
    submit (FetchResolved good_reply) asking = (Ok tt, p')
    ∧ history p'
      = push_bounded (push_bounded (history asking) (user_entry asking))
                     (text_message "assistant" "Try the Revitalift serum.").
Proof.
  destruct (reply_is_rendered_and_appended asking good_reply "Try the Revitalift serum."
              asking_reachable asking_nonempty)
    as (p' & Hrun & _ & Hhist & _).
  - reflexivity.
  - exact good_reply_text.
  - discriminate.
  - exists p'. split; [exact Hrun | exact Hhist].
Defined.

(** X15 at a request that never completes. *)
Lemma rejected_fetch_shows_network_error_witness :
  ∃ p' msgs,
    submit (FetchRejected NetworkError) asking = (Ok tt, p')
    ∧ chatWindow p'
      = chatWindow asking
          ++ [bubble (next_id asking) "user" (trim (userInput_value asking));
              bubble (S (S (next_id asking))) "ai" NETWORK_ERROR_NOTICE]
    ∧ history p' = push_bounded (history asking) (user_entry asking)
    ∧ requests p' = requests asking ++ [worker_request msgs]
    ∧ last (console p') = Some (ErrorCaught NetworkError).
Proof.
  exact (rejected_fetch_shows_network_error asking NetworkError
           asking_reachable asking_nonempty).
Defined.

(** X17 at the page after the welcome. *)
Lemma transcript_text_is_never_markup_witness :
  Forall plain_or_typing (chatWindow (submit (FetchResolved good_reply) asking).2).
Proof.
  refine (proj1 (transcript_text_is_never_markup (FetchResolved good_reply) None asking _)).
  assert (chatWindow asking = [bubble 0 "ai" (welcomeFor "Ada")]) as ->
    by (vm_compute; reflexivity).
  repeat constructor.
Defined.

(** X18 at a body with a second choice and further properties. *)
Lemma extract_reply_reads_first_choice_witness :
  extract_reply shaped_body = Ok (VStr (trim "  Use a serum.  ")).
Proof.
  eapply (extract_reply_reads_first_choice shaped_body); reflexivity.
Defined.

(** X21 at a request that never completes. *)
Lemma one_request_per_submission_witness :
  ∃ rest,
    requests (submit (FetchRejected NetworkError) asking).2
    = requests asking
        ++ [mkRequest WORKER_URL "POST" "application/json"
              (text_message "system" (systemPromptFor (userName asking)) :: rest)
              600 (2 # 10)]
    ∧ length rest = length (push_bounded (history asking) (user_entry asking)).
Proof.
  exact (one_request_per_submission (FetchRejected NetworkError) asking
           asking_reachable asking_nonempty).
Defined.

(** X22 at two questions whose replies arrive in order. *)
Lemma overlapping_submissions_keep_order_witness :
  history
    (submit_resume (typing_indicator 4) (FetchResolved good_reply)
       (submit_resume (typing_indicator 2) (FetchResolved good_reply)
          (submit_begin
             (set_userInput_value "And a cream?" (submit_begin asking).2)).2).2).2
  = [text_message "assistant" (welcomeFor "Ada");
     text_message "user" "Which serum?";
     text_message "user" "And a cream?";
     text_message "assistant" "Try the Revitalift serum.";
     text_message "assistant" "Try the Revitalift serum."].
Proof.
  pose proof (overlapping_submissions_keep_order asking "And a cream?"
                good_reply good_reply
                "Try the Revitalift serum." "Try the Revitalift serum."
                asking_reachable asking_nonempty) as H.
  cbv zeta in H.
  destruct H as (_ & _ & Hhist & _);
    [vm_compute; discriminate | reflexivity | exact good_reply_text | discriminate
     | reflexivity | exact good_reply_text | discriminate |].
  assert (next_id asking = 1) as Hn by (vm_compute; reflexivity).
  rewrite Hn in Hhist. rewrite Hhist. vm_compute. reflexivity.
Defined.

End FurtherExamples.
